(** * wbcd_phase1: loading and preprocessing of the WDBC table

    A shallow embedding of [wbcd_phase1.py] (archive locator, table loader,
    schema normalizer, preprocessor) and the properties of its
    specification.

    Conventions.
    - Python [str] values are [string]s (UTF-8 bytes).  [Str.lower] and
      [Str.strip] are Python's [lower] and [strip] on ASCII text.  Beyond
      ASCII they leave every byte alone, where Python also strips Unicode
      white space and lower-cases other letters.  The suffix tests of the
      locator are not affected: no letter of its three suffixes is the lower
      case of a character outside ASCII.  The labels of line 85 are: what is
      stated of labels is stated of ASCII labels, or of labels as
      [normalize_name] makes them.
    - A pandas [DataFrame] is an ordered list of labelled columns; a column
      ([Series]) is a typed vector whose constructor is its dtype.
    - [float64] values are IEEE 754 binary64 values ([spec_float]).
    - Exceptions are the [Raise] results of an error monad; where the
      program assigns into a frame that its caller still holds, frames live
      in a store and are passed by reference. *)

From Stdlib Require Import ZArith Ascii String Sorted Floats.SpecFloat.
From stdpp Require Import base list strings.

Local Open Scope string_scope.
Local Open Scope list_scope.

(* ===================================================================== *)
(** * Exceptions                                                           *)
(* ===================================================================== *)

Inductive exn :=
  | FileNotFoundError
  | ValueError
  | KeyError (label : string)
  | IndexError
  | TypeError
  | ParserError
  | IntCastingNaNError
  | ReferenceError.            (* a reference to no object of the store *)

Inductive result (A : Type) :=
  | Ok (a : A)
  | Raise (e : exn).
Arguments Ok {A} a.
Arguments Raise {A} e.

(* ===================================================================== *)
(** * Strings                                                              *)
(* ===================================================================== *)

Module Str.

Definition is_upper (c : ascii) : bool :=
  let n := nat_of_ascii c in (65 <=? n)%nat && (n <=? 90)%nat.

Definition lower_char (c : ascii) : ascii :=
  if is_upper c then ascii_of_nat (nat_of_ascii c + 32) else c.

(** [s.lower()] *)
Fixpoint lower (s : string) : string :=
  match s with
  | EmptyString => EmptyString
  | String c s' => String (lower_char c) (lower s')
  end.

(** [s.endswith(suf)]: some tail of [s] is [suf]. *)
Fixpoint endswith (s suf : string) : bool :=
  if String.eqb s suf then true
  else match s with
       | EmptyString => false
       | String _ s' => endswith s' suf
       end.

(** ASCII white space: TAB, LF, VT, FF, CR, FS, GS, RS, US and SPACE. *)
Definition is_space (c : ascii) : bool :=
  let n := nat_of_ascii c in
  ((9 <=? n)%nat && (n <=? 13)%nat) || ((28 <=? n)%nat && (n <=? 32)%nat).

Fixpoint lstrip (s : string) : string :=
  match s with
  | EmptyString => EmptyString
  | String c s' => if is_space c then lstrip s' else s
  end.

Fixpoint rstrip (s : string) : string :=
  match s with
  | EmptyString => EmptyString
  | String c s' =>
      match rstrip s' with
      | EmptyString => if is_space c then EmptyString else String c EmptyString
      | r => String c r
      end
  end.

(** [s.strip()] *)
Definition strip (s : string) : string := rstrip (lstrip s).

(** [s.replace(" ", "_")] *)
Fixpoint replace_space (s : string) : string :=
  match s with
  | EmptyString => EmptyString
  | String c s' =>
      String (if Ascii.eqb c " "%char then "_"%char else c) (replace_space s')
  end.

(** [x in xs] for a tuple or list of strings. *)
Fixpoint mem (x : string) (xs : list string) : bool :=
  match xs with
  | [] => false
  | y :: ys => if String.eqb x y then true else mem x ys
  end.

End Str.

(* ===================================================================== *)
(** * Archive locator                                                      *)
(* ===================================================================== *)

(** A ZIP archive: its members in listing order, each a name and a content.
    The content type is left open here; the loader fixes it. *)
Definition ZipFile (C : Type) := list (string * C).

Definition namelist {C} (z : ZipFile C) : list string := map fst z.

(** [for nm in files: if nm.lower().endswith(suf): return nm] *)
Fixpoint first_with_suffix (suf : string) (files : list string) : option string :=
  match files with
  | [] => None
  | nm :: rest =>
      if Str.endswith (Str.lower nm) suf then Some nm
      else first_with_suffix suf rest
  end.

Definition find_data_member {C} (z : ZipFile C) : result (string * bool) :=
  let names := namelist z in
  let files := List.filter (fun n => negb (Str.endswith n "/")) names in
  match first_with_suffix "wdbc.data" files with
  | Some nm => Ok (nm, false)
  | None =>
      match first_with_suffix ".csv" files with
      | Some nm => Ok (nm, true)
      | None =>
          match first_with_suffix ".data" files with
          | Some nm => Ok (nm, false)
          | None => Raise FileNotFoundError
          end
      end
  end.

(** The locator as the specification words it.  Nothing here is taken from
    the locator's code: a suffix match is a decomposition of the name, and
    case is ignored letter by letter. *)
Module LocatorSpec.

(** The letters, each upper-case one with its lower-case one. *)
Definition LETTERS : list (ascii * ascii) :=
  combine (list_ascii_of_string "ABCDEFGHIJKLMNOPQRSTUVWXYZ")
          (list_ascii_of_string "abcdefghijklmnopqrstuvwxyz").

(** The same character, or the same letter in the other case. *)
Definition same_char (a b : ascii) : Prop :=
  a = b \/ In (a, b) LETTERS \/ In (b, a) LETTERS.

(** Case-insensitive suffix match: [nm] is some prefix followed by a tail
    that is [suf] character by character, case ignored. *)
Definition matches (suf nm : string) : Prop :=
  exists prefix tail : string,
    nm = (prefix ++ tail)%string /\
    Forall2 same_char (list_ascii_of_string tail) (list_ascii_of_string suf).

(** A directory entry: a name whose last character is the slash. *)
Definition is_directory (nm : string) : bool :=
  match rev (list_ascii_of_string nm) with
  | "/"%char :: _ => true
  | _ => false
  end.

(** [nm] is the first member, in listing order, that matches [suf]. *)
Definition first_match (suf : string) (files : list string) (nm : string) : Prop :=
  exists before after,
    files = before ++ nm :: after /\
    matches suf nm /\
    forall x, In x before -> ~ matches suf x.

Definition no_match (suf : string) (files : list string) : Prop :=
  forall x, In x files -> ~ matches suf x.

(** The non-directory members of a listing. *)
Definition members (names : list string) : list string :=
  List.filter (fun n => negb (is_directory n)) names.

Inductive locate (files : list string) : result (string * bool) -> Prop :=
  | locate_wdbc nm :
      first_match "wdbc.data" files nm ->
      locate files (Ok (nm, false))
  | locate_csv nm :
      no_match "wdbc.data" files ->
      first_match ".csv" files nm ->
      locate files (Ok (nm, true))
  | locate_data nm :
      no_match "wdbc.data" files ->
      no_match ".csv" files ->
      first_match ".data" files nm ->
      locate files (Ok (nm, false))
  | locate_not_found :
      no_match "wdbc.data" files ->
      no_match ".csv" files ->
      no_match ".data" files ->
      locate files (Raise FileNotFoundError).

End LocatorSpec.

(* ===================================================================== *)
(** * Values, columns and frames                                           *)
(* ===================================================================== *)

(** ** float64 *)

Definition float := spec_float.

Definition float_of_Z (z : Z) : float := binary_normalize 53 1024 z 0 false.

Definition nan : float := S754_nan.

Definition is_nan (f : float) : bool :=
  match f with S754_nan => true | _ => false end.

(** [np.isfinite] *)
Definition is_finite (f : float) : bool :=
  match f with S754_zero _ | S754_finite _ _ _ => true | _ => false end.

(** Truncation toward zero of a finite float. *)
Definition trunc (f : float) : Z :=
  match f with
  | S754_finite s m e =>
      let a := Z.shiftl (Zpos m) e in if s then (- a)%Z else a
  | _ => 0%Z
  end.

Definition INT64_MIN : Z := (- 2 ^ 63)%Z.
Definition INT64_MAX : Z := (2 ^ 63 - 1)%Z.

(** The C cast [(int64_t) x] of a finite double; out of range it yields the
    "integer indefinite" value of the x86-64 conversion. *)
Definition float_to_int64 (f : float) : Z :=
  let z := trunc f in
  if ((INT64_MIN <=? z) && (z <=? INT64_MAX))%Z then z else INT64_MIN.

(** Equality of floats as the hash tables of pandas see it on non-NaN
    values: numeric equality, the two zeros being equal. *)
Definition float_eqb (a b : float) : bool :=
  match SFcompare a b with Some Eq => true | _ => false end.

(** ** Cells *)

(** What a cell of a column of dtype [object] can hold. *)
Inductive scalar :=
  | VInt (z : Z)
  | VFloat (f : float)
  | VBool (b : bool)
  | VStr (s : string)
  | VNA.                     (* pd.NA *)

(** [pd.isna] on a cell: NaN and [pd.NA] are the absent markers. *)
Definition isna (v : scalar) : bool :=
  match v with
  | VFloat f => is_nan f
  | VNA => true
  | _ => false
  end.

Definition scalar_eqb (a b : scalar) : bool :=
  match a, b with
  | VInt x, VInt y => (x =? y)%Z
  | VFloat x, VFloat y => float_eqb x y
  | VBool x, VBool y => Bool.eqb x y
  | VStr x, VStr y => String.eqb x y
  | VNA, VNA => true
  | _, _ => false
  end.

(** ** Series: a typed column; the constructor is the dtype *)

Inductive Series :=
  | SInt (l : list Z)            (* int64 *)
  | SFloat (l : list float)      (* float64 *)
  | SBool (l : list bool)        (* bool *)
  | SObject (l : list scalar).   (* object *)

(** The cells of a column, whatever its dtype. *)
Definition cells (s : Series) : list scalar :=
  match s with
  | SInt l => map VInt l
  | SFloat l => map VFloat l
  | SBool l => map VBool l
  | SObject l => l
  end.

(** [len(s)] *)
Definition len (s : Series) : nat := length (cells s).

(** [pd.api.types.is_numeric_dtype(s)] *)
Definition is_numeric_dtype (s : Series) : bool :=
  match s with
  | SInt _ | SFloat _ | SBool _ => true
  | SObject _ => false
  end.

(** [s.isna().any()] *)
Definition isna_any (s : Series) : bool := existsb isna (cells s).

(** Number of distinct values of a list under a boolean equality. *)
Fixpoint count_distinct {A} (eqb : A -> A -> bool) (l : list A) : nat :=
  match l with
  | [] => 0
  | x :: r =>
      if existsb (eqb x) r then count_distinct eqb r
      else S (count_distinct eqb r)
  end.

(** [s.nunique()]: distinct values, absent ones not counted.  The program
    only calls it on a column of numeric dtype. *)
Definition nunique (s : Series) : nat :=
  match s with
  | SInt l => count_distinct Z.eqb l
  | SFloat l => count_distinct float_eqb (List.filter (fun f => negb (is_nan f)) l)
  | SBool l => count_distinct Bool.eqb l
  | SObject l => count_distinct scalar_eqb (List.filter (fun v => negb (isna v)) l)
  end.

(** [s.astype(int)].  int64 stays, bool becomes 0/1, float64 is truncated
    and refuses NaN and the infinities.  The program never casts a column
    of dtype [object] (it casts a column of numeric dtype, or the result of
    [map_dict]); there only cells that already hold a number are
    converted. *)
Definition astype_int (s : Series) : result Series :=
  match s with
  | SInt l => Ok (SInt l)
  | SBool l => Ok (SInt (map Z.b2z l))
  | SFloat l =>
      if forallb is_finite l then Ok (SInt (map float_to_int64 l))
      else Raise IntCastingNaNError
  | SObject l =>
      let conv v :=
        match v with
        | VInt z => Some z
        | VBool b => Some (Z.b2z b)
        | VFloat f => if is_finite f then Some (float_to_int64 f) else None
        | VStr _ | VNA => None
        end in
      match mapM conv l with
      | Some zs => Ok (SInt zs)
      | None => Raise ValueError
      end
  end.

(** A Python [dict] literal with string keys and integer values. *)
Definition dict := list (string * Z).

Fixpoint dict_get (d : dict) (k : string) : option Z :=
  match d with
  | [] => None
  | (k', v) :: d' => if String.eqb k k' then Some v else dict_get d' k
  end.

(** Lookup of a cell in a dict whose keys are strings: only a string cell
    can be a key. *)
Definition dict_get_cell (d : dict) (v : scalar) : option Z :=
  match v with
  | VStr s => dict_get d s
  | _ => None
  end.

(** [s.map(d)]: every cell is looked up in [d]; a cell that is no key of [d]
    becomes NaN.  The result is int64 when every cell was found and float64
    otherwise. *)
Definition map_dict (d : dict) (s : Series) : Series :=
  let looked := map (dict_get_cell d) (cells s) in
  match mapM id looked with
  | Some zs => SInt zs
  | None =>
      SFloat (map (fun o => match o with Some z => float_of_Z z | None => nan end) looked)
  end.

(** [s.replace(d)] for a dict with string keys: a column of numeric dtype
    cannot hold a key and is returned as it is. *)
Definition replace_dict (d : dict) (s : Series) : Series :=
  match s with
  | SObject l =>
      SObject (map (fun v => match dict_get_cell d v with
                             | Some z => VInt z
                             | None => v
                             end) l)
  | _ => s
  end.

(** [s.fillna(other)]: the absent cells of [s] take the cell of [other] at
    the same row.  A float64 column filled from a float64 column stays
    float64 (the only case the program reaches); columns without absent
    cells are returned as they are. *)
Definition fillna (s other : Series) : Series :=
  match s, other with
  | SFloat l, SFloat o =>
      SFloat (zip_with (fun a b => if is_nan a then b else a) l o)
  | SFloat l, SInt o =>
      SFloat (zip_with (fun a b => if is_nan a then float_of_Z b else a) l o)
  | SInt _, _ | SBool _, _ => s
  | _, _ =>
      SObject (zip_with (fun a b => if isna a then b else a) (cells s) (cells other))
  end.

(** ** DataFrame: ordered, labelled columns *)

Definition DataFrame := list (string * Series).

(** [list(df.columns)] *)
Definition columns (df : DataFrame) : list string := map fst df.

(** [len(df)]: the number of rows. *)
Definition nrows (df : DataFrame) : nat :=
  match df with
  | [] => 0
  | (_, s) :: _ => len s
  end.

(** The data model of the specification: column labels are unique. *)
Definition unique_labels (df : DataFrame) : Prop := NoDup (columns df).

(** [df[label]] on a frame with unique labels. *)
Fixpoint getitem (df : DataFrame) (label : string) : result Series :=
  match df with
  | [] => Raise (KeyError label)
  | (n, s) :: rest => if String.eqb n label then Ok s else getitem rest label
  end.

Definition has_column (df : DataFrame) (label : string) : bool :=
  Str.mem label (columns df).

(** [df[label] = s]: the column is replaced where it stands; a new label is
    appended. *)
Fixpoint setitem (df : DataFrame) (label : string) (s : Series) : DataFrame :=
  match df with
  | [] => [(label, s)]
  | (n, old) :: rest =>
      if String.eqb n label then (n, s) :: rest
      else (n, old) :: setitem rest label s
  end.

(** [df.drop(columns=labels)]: a new frame; a label that is no column is a
    [KeyError]. *)
Definition drop (df : DataFrame) (labels : list string) : result DataFrame :=
  match List.find (fun l => negb (has_column df l)) labels with
  | Some l => Raise (KeyError l)
  | None => Ok (List.filter (fun c => negb (Str.mem (fst c) labels)) df)
  end.

(** [df.rename(columns={old: new})]: a new frame. *)
Definition rename (df : DataFrame) (old new : string) : DataFrame :=
  map (fun c => if String.eqb (fst c) old then (new, snd c) else c) df.

(** The missing-value sentinels of [preprocess]. *)
Definition SENTINELS : list string := ["?"; "NA"; "null"; "None"].

Definition replace_sentinel (v : scalar) : scalar :=
  match v with
  | VStr s => if Str.mem s SENTINELS then VNA else v
  | _ => v
  end.

(** [df.replace({"?": pd.NA, "NA": pd.NA, "null": pd.NA, "None": pd.NA})]:
    a new frame; only a column of dtype [object] can hold a key. *)
Definition replace_sentinels_series (s : Series) : Series :=
  match s with
  | SObject l => SObject (map replace_sentinel l)
  | _ => s
  end.

Definition replace_sentinels (df : DataFrame) : DataFrame :=
  map (fun c => (fst c, replace_sentinels_series (snd c))) df.

(* ===================================================================== *)
(** * The error monad                                                      *)
(* ===================================================================== *)

#[global] Instance result_ret : MRet result := fun _ a => Ok a.

#[global] Instance result_bind : MBind result :=
  fun _ _ k r => match r with Ok a => k a | Raise e => Raise e end.

(* ===================================================================== *)
(** * What the program takes from pandas' parsers                          *)
(* ===================================================================== *)

(** The text of an archive member as pandas' tokenizer delivers it: one list
    of fields for each line that is not blank. *)
Definition Content := list (list string).

(** The conversions from text that pandas performs and the program relies
    on.  The development is parametric in them.
    - [floatify s]: the number a string denotes, if it denotes one: its
      float64 value and, when the text is an integer literal that fits
      int64, that integer;
    - [infer_column fields]: the typed column [read_csv] builds from the
      fields of one column (an empty field is a missing value);
    - [read_csv_header rows]: [pd.read_csv(buf)], the first line giving the
      labels. *)
Class Pandas := {
  floatify : string -> option (float * option Z);
  infer_column : list string -> Series;
  read_csv_header : Content -> result DataFrame
}.

(** An instance to run examples with: it reads unsigned decimal integer
    literals and nothing else, keeps every field as text, and takes the
    first line as labels without further ado. *)
Module Plain.

Definition digit (c : ascii) : option Z :=
  let n := nat_of_ascii c in
  if ((48 <=? n) && (n <=? 57))%nat then Some (Z.of_nat (n - 48)) else None.

Fixpoint digits (acc : Z) (s : string) : option Z :=
  match s with
  | EmptyString => Some acc
  | String c s' =>
      match digit c with
      | Some d => digits (10 * acc + d)%Z s'
      | None => None
      end
  end.

Definition parse_number (s : string) : option (float * option Z) :=
  match s with
  | EmptyString => None
  | _ =>
      match digits 0 s with
      | Some z => Some (float_of_Z z, if (z <=? INT64_MAX)%Z then Some z else None)
      | None => None
      end
  end.

Definition keep_text (fields : list string) : Series :=
  SObject (map (fun f => if String.eqb f "" then VFloat nan else VStr f) fields).

Definition first_line_labels (rows : Content) : result DataFrame :=
  match rows with
  | [] => Raise ValueError
  | header :: data =>
      Ok (imap (fun i n => (n, keep_text (map (fun r => nth i r "") data))) header)
  end.

Definition pandas : Pandas :=
  {| floatify := parse_number;
     infer_column := keep_text;
     read_csv_header := first_line_labels |}.

End Plain.

(** An instance that takes every text for the number 0: with it no cell is
    absent for want of a number to read. *)
Module Lenient.

Definition any_number (s : string) : option (float * option Z) :=
  Some (float_of_Z 0, Some 0%Z).

Definition pandas : Pandas :=
  {| floatify := any_number;
     infer_column := Plain.keep_text;
     read_csv_header := Plain.first_line_labels |}.

End Lenient.

(* ===================================================================== *)
(** * Numeric coercion                                                     *)
(* ===================================================================== *)

(** What [to_numeric] sees in one cell of a column of dtype [object]. *)
Inductive parsed :=
  | PInt (z : Z) (f : float)   (* an integer, and its float64 value *)
  | PFloat (f : float)
  | PBool (b : bool)
  | PNull.                     (* absent, or text that is no number *)

Definition float_slot (p : parsed) : float :=
  match p with
  | PInt _ f => f
  | PFloat f => f
  | PBool b => float_of_Z (Z.b2z b)
  | PNull => nan
  end.

Definition int_slot (p : parsed) : Z :=
  match p with
  | PInt z _ => z
  | PBool b => Z.b2z b
  | _ => 0%Z
  end.

Definition bool_slot (p : parsed) : bool :=
  match p with PBool b => b | _ => false end.

Definition saw_float (p : parsed) : bool :=
  match p with PFloat _ | PNull => true | _ => false end.

Definition saw_int (p : parsed) : bool :=
  match p with PInt _ _ => true | _ => false end.

Definition saw_bool (p : parsed) : bool :=
  match p with PBool _ => true | _ => false end.

Section ToNumeric.
Context {P : Pandas}.

(** One cell under [errors="coerce"]: text that does not parse is absent. *)
Definition convert_cell (v : scalar) : parsed :=
  match v with
  | VInt z => PInt z (float_of_Z z)
  | VFloat f => PFloat f
  | VBool b => PBool b
  | VNA => PNull
  | VStr s =>
      match floatify s with
      | Some (f, Some z) => PInt z f
      | Some (f, None) => PFloat f
      | None => PNull
      end
  end.

(** [pd.to_numeric(s, errors="coerce")]: a column of numeric dtype is
    returned as it is; a column of dtype [object] is converted cell by cell
    and given the narrowest dtype that holds every cell: float64 as soon as
    one cell is a float or absent, else int64, else bool.  Integers are
    those of int64: the path pandas has for integers between 2^63 and 2^64
    (uint64) is not modelled, such a literal counts as the float it rounds
    to. *)
Definition to_numeric (s : Series) : Series :=
  match s with
  | SObject l =>
      let ps := map convert_cell l in
      if existsb saw_float ps then SFloat (map float_slot ps)
      else if existsb saw_int ps then SInt (map int_slot ps)
      else if existsb saw_bool ps then SBool (map bool_slot ps)
      else SInt (map int_slot ps)
  | _ => s
  end.

End ToNumeric.

(* ===================================================================== *)
(** * Table loader and schema normalizer                                   *)
(* ===================================================================== *)

Definition COLUMN_NAMES : list string :=
  [ "id"; "diagnosis";
    "radius_mean"; "texture_mean"; "perimeter_mean"; "area_mean"; "smoothness_mean";
    "compactness_mean"; "concavity_mean"; "concave_points_mean"; "symmetry_mean";
    "fractal_dimension_mean";
    "radius_se"; "texture_se"; "perimeter_se"; "area_se"; "smoothness_se";
    "compactness_se"; "concavity_se"; "concave_points_se"; "symmetry_se";
    "fractal_dimension_se";
    "radius_worst"; "texture_worst"; "perimeter_worst"; "area_worst"; "smoothness_worst";
    "compactness_worst"; "concavity_worst"; "concave_points_worst"; "symmetry_worst";
    "fractal_dimension_worst" ].

(** [c.strip().lower().replace(" ", "_")] *)
Definition normalize_name (c : string) : string :=
  Str.replace_space (Str.lower (Str.strip c)).

(** [df[label]] on a frame whose labels may repeat: the column carrying the
    label, or, when several columns carry it, the frame of those columns. *)
Inductive selection :=
  | OneColumn (s : Series)
  | SubFrame (cols : list Series).

Definition select (df : DataFrame) (label : string) : result selection :=
  match List.filter (fun c => String.eqb (fst c) label) df with
  | [] => Raise (KeyError label)
  | [c] => Ok (OneColumn (snd c))
  | cs => Ok (SubFrame (map snd cs))
  end.

(** [pd.api.types.is_numeric_dtype(x)]: a frame has no dtype and the answer
    is [False]. *)
Definition is_numeric_dtype_of (x : selection) : bool :=
  match x with
  | OneColumn s => is_numeric_dtype s
  | SubFrame _ => false
  end.

(** The test of line 97,
    [is_numeric_dtype(df[first_col]) and df[first_col].nunique() > 0.9 * len(df)].
    Line 85 can give two columns the same label; [df[first_col]] is then a
    frame, not a column, and the first operand is [False].  ([nunique] of a
    frame is a column of counts, whose truth value [if] refuses; [and] does
    not get there.)
    [0.9 * len(df)] is a float64 product; for the row counts a table in
    memory can have (below 2^49) comparing an integer with it is comparing
    [10 * nunique] with [9 * len] exactly. *)
Definition looks_like_id (df : DataFrame) (first_col : string) : result bool :=
  x ← select df first_col;
  if is_numeric_dtype_of x then
    y ← select df first_col;
    match y with
    | OneColumn u => Ok (9 * nrows df <? 10 * nunique u)%nat
    | SubFrame _ => Raise ValueError
    end
  else Ok false.

Section Normalizer.

(** The normalizer for any way of evaluating the identifier test; the
    program's is [looks_like_id]. *)
Variable heuristic : DataFrame -> string -> result bool.

(** Lines 84 to 102 of [load_wbcd_from_zip]. *)
Definition normalize_schema_with (df : DataFrame) : result DataFrame :=
  let df := map (fun c => (normalize_name (fst c), snd c)) df in
  if negb (has_column df "diagnosis") then Raise ValueError
  else
    match columns df with
    | [] => Raise IndexError
    | first_col :: _ =>
        if negb (String.eqb first_col "id") then
          match heuristic df first_col with
          | Ok true => Ok (rename df first_col "id")
          | Ok false => Ok df
          | Raise _ => Ok df                 (* except Exception: pass *)
          end
        else Ok df
    end.

End Normalizer.

Definition normalize_schema : DataFrame -> result DataFrame :=
  normalize_schema_with looks_like_id.

Section Loader.
Context {P : Pandas}.

(** [pd.read_csv(buf, header=None, names=names)].  No line is a header.
    With no line at all the frame has the named columns and no row.
    Otherwise the parser expects [max (fields of the first line) (number of
    names)] fields: a later line with more is a [ParserError], a line with
    fewer is completed with empty fields.  When the first line has more
    fields than there are names, the leading ones become the row index and
    the names go to the remaining ones. *)
Definition read_csv_names (names : list string) (rows : Content) : result DataFrame :=
  match rows with
  | [] => Ok (map (fun n => (n, infer_column [])) names)
  | first :: rest =>
      let expected := max (length first) (length names) in
      if existsb (fun r => (expected <? length r)%nat) rest then Raise ParserError
      else
        let leading := length first - length names in
        Ok (imap (fun i n =>
                    (n, infer_column (map (fun r => nth (leading + i) r "") rows)))
                 names)
  end.

(** [z.open(member).read()]: of several entries with one name the archive
    serves the last.  The content of an entry is what reading it delivers;
    an entry that cannot be read (encrypted, damaged, of an unsupported
    compression) is not among the archives modelled, so that of the errors
    of this call only the one for a name the archive does not have is
    here. *)
Definition zip_read (z : ZipFile Content) (member : string) : result Content :=
  match List.find (fun m => String.eqb (fst m) member) (rev z) with
  | Some m => Ok (snd m)
  | None => Raise (KeyError member)
  end.

(** The file system: the archive, if any, a path leads to. *)
Definition FileSystem := string -> option (ZipFile Content).

(** Lines 70 to 82: the table as read from the archive. *)
Definition read_table (fs : FileSystem) (zip_path : string) : result DataFrame :=
  match fs zip_path with
  | None => Raise FileNotFoundError
  | Some z =>
      r ← find_data_member z;
      let '(member, has_header) := r in
      raw ← zip_read z member;
      if has_header : bool then read_csv_header raw
      else read_csv_names COLUMN_NAMES raw
  end.

(** The loader for any way of evaluating the identifier test. *)
Definition load_wbcd_from_zip_with (heuristic : DataFrame -> string -> result bool)
    (fs : FileSystem) (zip_path : string) : result DataFrame :=
  df ← read_table fs zip_path;
  normalize_schema_with heuristic df.

Definition load_wbcd_from_zip : FileSystem -> string -> result DataFrame :=
  load_wbcd_from_zip_with looks_like_id.

End Loader.

(* ===================================================================== *)
(** * Frames in a store                                                    *)
(* ===================================================================== *)

(** [preprocess] assigns into the frame it was given before it builds new
    ones, so frames are objects of a store and variables hold references. *)
Abbreviation store := (list DataFrame).
Abbreviation ref := nat.

(** Computations that read and write the store and may raise; what was
    written before an exception stays written. *)
Definition M (A : Type) : Type := store -> store * result A.

Definition ret {A} (a : A) : M A := fun h => (h, Ok a).

Definition raise {A} (e : exn) : M A := fun h => (h, Raise e).

Definition bind {A B} (m : M A) (k : A -> M B) : M B :=
  fun h =>
    match m h with
    | (h', Ok a) => k a h'
    | (h', Raise e) => (h', Raise e)
    end.

Notation "x <- m ;; k" := (bind m (fun x => k))
  (at level 100, m at next level, right associativity).
Notation "m ;; k" := (bind m (fun _ => k))
  (at level 100, right associativity).

Definition lift {A} (r : result A) : M A := fun h => (h, r).

(** [for x in xs: body(x)] *)
Fixpoint for_each {A} (xs : list A) (body : A -> M unit) : M unit :=
  match xs with
  | [] => ret tt
  | x :: rest => body x ;; for_each rest body
  end.

Definition deref (r : ref) : M DataFrame :=
  fun h => match h !! r with
           | Some d => (h, Ok d)
           | None => (h, Raise ReferenceError)
           end.

(** A new frame object. *)
Definition alloc (d : DataFrame) : M ref :=
  fun h => (h ++ [d], Ok (length h)).

(** [df[label]] *)
Definition getitem_at (df : ref) (label : string) : M Series :=
  d <- deref df ;; lift (getitem d label).

(** [df[label] = s], in place. *)
Definition setitem_at (df : ref) (label : string) (s : Series) : M unit :=
  fun h => match h !! df with
           | Some d => (<[df := setitem d label s]> h, Ok tt)
           | None => (h, Raise ReferenceError)
           end.

(** [list(df.columns)] *)
Definition columns_at (df : ref) : M (list string) :=
  d <- deref df ;; ret (columns d).

(** [df.drop(columns=labels)] *)
Definition drop_at (df : ref) (labels : list string) : M ref :=
  d <- deref df ;; d' <- lift (drop d labels) ;; alloc d'.

(** [df.replace({...})] *)
Definition replace_sentinels_at (df : ref) : M ref :=
  d <- deref df ;; alloc (replace_sentinels d).

(* ===================================================================== *)
(** * Preprocessor                                                         *)
(* ===================================================================== *)

Definition mapping : dict := [("M", 1%Z); ("B", 0%Z); ("m", 1%Z); ("b", 0%Z)].

Definition alt_map : dict :=
  [("Maligno", 1%Z); ("Benigno", 0%Z); ("maligno", 1%Z); ("benigno", 0%Z)].

Section Preprocess.
Context {P : Pandas}.

Definition preprocess (df : ref) : M ref :=
  (* Mapear diagnosis *)
  d <- getitem_at df "diagnosis" ;;
  (if is_numeric_dtype d then
     d <- getitem_at df "diagnosis" ;;
     v <- lift (astype_int d) ;;
     setitem_at df "diagnosis" v
   else
     d <- getitem_at df "diagnosis" ;;
     setitem_at df "diagnosis" (map_dict mapping d) ;;
     d <- getitem_at df "diagnosis" ;;
     (if isna_any d then
        d1 <- getitem_at df "diagnosis" ;;
        d2 <- getitem_at df "diagnosis" ;;
        setitem_at df "diagnosis" (fillna d1 (replace_dict alt_map d2))
      else ret tt) ;;
     d <- getitem_at df "diagnosis" ;;
     v <- lift (astype_int d) ;;
     setitem_at df "diagnosis" v) ;;
  (* Descartar la primera columna (ID) si existe *)
  cols <- columns_at df ;;
  df <- match cols with
        | [] => raise IndexError
        | c0 :: _ =>
            if String.eqb c0 "id" then drop_at df ["id"]
            else
              let candidate_ids :=
                List.filter (fun c => Str.mem c ["id"; "unnamed: 0"]) cols in
              match candidate_ids with
              | [] => ret df
              | _ => drop_at df candidate_ids
              end
        end ;;
  (* Reemplazar simbolos de faltantes comunes con NaN y convertir numericos *)
  df <- replace_sentinels_at df ;;
  cols <- columns_at df ;;
  let feature_cols := List.filter (fun c => negb (String.eqb c "diagnosis")) cols in
  for_each feature_cols
    (fun c => s <- getitem_at df c ;; setitem_at df c (to_numeric s)) ;;
  ret df.

(** ** The stages of [preprocess] as functions on frame values *)

(** Label encoding.  The result pairs the frame as the stage leaves it (the
    caller's frame, written in place) with the outcome. *)
Definition encode_label (t : DataFrame) : DataFrame * result unit :=
  match getitem t "diagnosis" with
  | Raise e => (t, Raise e)
  | Ok d =>
      if is_numeric_dtype d then
        match astype_int d with
        | Ok v => (setitem t "diagnosis" v, Ok tt)
        | Raise e => (t, Raise e)
        end
      else
        let m := map_dict mapping d in
        let m' := if isna_any m then fillna m (replace_dict alt_map m) else m in
        let t' := setitem t "diagnosis" m' in
        match astype_int m' with
        | Ok v => (setitem t "diagnosis" v, Ok tt)
        | Raise e => (t', Raise e)
        end
  end.

(** Identifier removal. *)
Definition drop_identifier (t : DataFrame) : result DataFrame :=
  match columns t with
  | [] => Raise IndexError
  | c0 :: _ =>
      if String.eqb c0 "id" then drop t ["id"]
      else
        match List.filter (fun c => Str.mem c ["id"; "unnamed: 0"]) (columns t) with
        | [] => Ok t
        | candidate_ids => drop t candidate_ids
        end
  end.

(** Numeric coercion of every column but the label. *)
Definition coerce_features (t : DataFrame) : DataFrame :=
  map (fun c => if String.eqb (fst c) "diagnosis" then c
                else (fst c, to_numeric (snd c))) t.

(** The Clean Table of a frame value. *)
Definition clean (t : DataFrame) : result DataFrame :=
  match encode_label t with
  | (t1, Ok _) =>
      t2 ← drop_identifier t1;
      Ok (coerce_features (replace_sentinels t2))
  | (_, Raise e) => Raise e
  end.

(** Running [preprocess] on a frame value: the frame is put in a store of
    its own; the result is the caller's frame after the call and the frame
    returned. *)
Definition run_preprocess (t : DataFrame) : DataFrame * result DataFrame :=
  match preprocess 0 [t] with
  | (h, Ok r) =>
      (default [] (h !! 0), match h !! r with
                            | Some out => Ok out
                            | None => Raise ReferenceError
                            end)
  | (h, Raise e) => (default [] (h !! 0), Raise e)
  end.

(** Normalization followed by preprocessing, as [main] chains them after
    the table has been read. *)
Definition normalize_and_preprocess (t : DataFrame) : result DataFrame :=
  t' ← normalize_schema t;
  snd (run_preprocess t').

End Preprocess.

(* ===================================================================== *)
(** * Vocabulary of the properties                                         *)
(* ===================================================================== *)

(** The cell of column [c] at row [i]. *)
Definition cell (t : DataFrame) (c : string) (i : nat) : option scalar :=
  match getitem t c with
  | Ok s => cells s !! i
  | Raise _ => None
  end.

(** Text of ASCII characters only.  On such text [Str.strip] and
    [Str.lower] are Python's [strip] and [lower], character for character. *)
Definition is_ascii (s : string) : bool :=
  forallb (fun c => (nat_of_ascii c <? 128)%nat) (list_ascii_of_string s).


(** The label columns the label stage accepts: any int64 or bool column, a
    float64 column of finite values, a column of text whose cells are all
    keys of [mapping]. *)
Definition label_ok (s : Series) : bool :=
  match s with
  | SInt _ | SBool _ => true
  | SFloat l => forallb is_finite l
  | SObject l =>
      forallb (fun v => match v with
                        | VStr x => Str.mem x ["M"; "B"; "m"; "b"]
                        | _ => false
                        end) l
  end.

Definition valid_label (t : DataFrame) : Prop :=
  exists d, getitem t "diagnosis" = Ok d /\ label_ok d = true.

(** An already-clean table: integer label in {0, 1}, no [id] column, every
    other column of numeric dtype (numbers or NaN). *)
Definition binary_label (s : Series) : bool :=
  match s with
  | SInt l => forallb (fun z => (z =? 0)%Z || (z =? 1)%Z) l
  | _ => false
  end.

Definition already_clean (t : DataFrame) : bool :=
  match getitem t "diagnosis" with
  | Ok d => binary_label d
  | Raise _ => false
  end
  && negb (has_column t "id")
  && forallb (fun c => String.eqb (fst c) "diagnosis" || is_numeric_dtype (snd c)) t.

(** The identifier test on the first column of a frame, as it comes out
    when no other column carries that column's label. *)
Definition first_column_passes_id_test (t : DataFrame) : bool :=
  match t with
  | [] => false
  | (_, s) :: _ => is_numeric_dtype s && (9 * nrows t <? 10 * nunique s)%nat
  end.

(** Column labels that normalization leaves as they are. *)
Definition normalized_labels (t : DataFrame) : Prop :=
  Forall (fun c => normalize_name c = c) (columns t).

(** The fixed names assigned by position: column [i] holds field [i] of
    every line, an empty field where the line is too short. *)
Definition positional_frame {P : Pandas} (rows : Content) : DataFrame :=
  imap (fun i n => (n, infer_column (map (fun r => nth i r "") rows)))
       COLUMN_NAMES.

(** A line after the first with more fields than the parser expects. *)
Definition overlong_line (rows : Content) : Prop :=
  exists first rest,
    rows = first :: rest /\
    Exists (fun r => (max (length first) 32 < length r)%nat) rest.

(** One iteration of the coercion loop, on a frame value. *)
Definition coerce_column {P : Pandas} (u : DataFrame) (c : string) : DataFrame :=
  match getitem u c with
  | Ok s => setitem u c (to_numeric s)
  | Raise _ => u
  end.

(* ===================================================================== *)
(** * The rest of the program                                              *)
(* ===================================================================== *)

(** [main], lines 185 and 189: the table is loaded, then preprocessed. *)
Definition pipeline {P : Pandas} (fs : FileSystem) (zip_path : string)
    : result DataFrame :=
  df_raw ← load_wbcd_from_zip fs zip_path;
  snd (run_preprocess df_raw).

(** What [report] computes before it prints. *)

(** [s.isna().sum()] *)
Definition isna_sum (s : Series) : nat := length (List.filter isna (cells s)).

(** [missing = df.isna().sum()]: the absent cells of every column. *)
Definition missing (df : DataFrame) : list (string * nat) :=
  map (fun c => (fst c, isna_sum (snd c))) df.

(** [total_missing = int(missing.sum())] *)
Definition total_missing (df : DataFrame) : nat :=
  fold_right Nat.add 0 (map snd (missing df)).

(** One more occurrence of [k] in a table of counts kept in ascending key
    order. *)
Fixpoint count_key (k : Z) (counts : list (Z * nat)) : list (Z * nat) :=
  match counts with
  | [] => [(k, 1)]
  | (k', n) :: rest =>
      if (k <? k')%Z then (k, 1) :: counts
      else if (k =? k')%Z then (k', S n) :: rest
      else (k', n) :: count_key k rest
  end.

(** [s.value_counts().sort_index()] on an int64 column: how often each
    value occurs, by ascending value. *)
Definition value_counts_sort_index (l : list Z) : list (Z * nat) :=
  fold_right count_key [] l.


(* ===================================================================== *)
(** * Sample tables                                                        *)
(* ===================================================================== *)

Module Examples.

(** A table as the loader delivers it: identifier first, labels as text, a
    sentinel and a malformed cell among the features. *)
Definition text_labels : DataFrame :=
  [ ("id", SInt [842302; 842517]%Z);
    ("diagnosis", SObject [VStr "M"; VStr "B"]);
    ("radius_mean", SObject [VStr "17"; VStr "?"]);
    ("texture_mean", SObject [VStr "error"; VStr "10"]) ].

(** Labels in the second encoding. *)
Definition spanish_labels : DataFrame :=
  [ ("diagnosis", SObject [VStr "Maligno"; VStr "Benigno"]);
    ("radius_mean", SInt [17; 20]%Z) ].

(** A file written with its row index and read back: the header names the
    index column [Unnamed: 0]. *)
Definition unnamed_index : DataFrame :=
  [ ("diagnosis", SObject [VStr "M"; VStr "B"]);
    ("Unnamed: 0", SInt [0; 1]%Z);
    ("radius_mean", SInt [17; 20]%Z) ].

(** Identifier, one feature, the label. *)
Definition with_id : DataFrame :=
  [ ("id", SInt [842302; 842517]%Z);
    ("radius_mean", SInt [17; 20]%Z);
    ("diagnosis", SObject [VStr "M"; VStr "B"]) ].

Definition with_id_clean : DataFrame :=
  [ ("radius_mean", SInt [17; 20]%Z);
    ("diagnosis", SInt [1; 0]%Z) ].

(** A clean table whose first column is the label: three rows and two
    distinct labels, so the label does not pass the identifier test. *)
Definition label_first : DataFrame :=
  [ ("diagnosis", SInt [1; 0; 1]%Z);
    ("radius_mean", SInt [17; 20; 17]%Z) ].

(** Feature columns of dtype [object] with cells of every kind: the four
    sentinels, text that is and is not a number, numbers, booleans and an
    absent cell. *)
Definition mixed_cells : DataFrame :=
  [ ("diagnosis", SObject [VStr "M"; VStr "B"; VStr "B"; VStr "M"]);
    ("radius_mean", SObject [VStr "?"; VStr "NA"; VStr "null"; VStr "None"]);
    ("texture_mean", SObject [VStr "17"; VStr "none"; VStr "N/A"; VStr "??"]);
    ("perimeter_mean", SObject [VInt 12; VFloat (float_of_Z 3); VBool true; VNA]);
    ("area_mean", SObject [VStr "41"; VInt 20; VBool true; VStr "3"]);
    ("smoothness_mean", SObject [VBool true; VBool false; VBool false; VBool true]) ].

(** An archive whose only data member is headerless and has one line of two
    fields. *)
Definition short_line : ZipFile Content :=
  [ ("wdbc.names", [["notes"]]);
    ("wdbc.data", [["842302"; "M"]]) ].

(** An archive with a CSV export: a header line and two samples. *)
Definition csv_archive : ZipFile Content :=
  [ ("export/", []);
    ("export/data.csv", [["Sample"; "Diagnosis"]; ["a"; "M"]; ["b"; "B"]]) ].

End Examples.

(* ===================================================================== *)
(** * Properties of the archive locator                                    *)
(* ===================================================================== *)

Section LocatorFacts.
Import LocatorSpec.

Lemma endswith_refl s : Str.endswith s s = true.
Proof. destruct s; cbn [Str.endswith]; now rewrite String.eqb_refl. Qed.

Lemma endswith_app s suf :
  Str.endswith s suf = true <-> exists p, s = (p ++ suf)%string.
Proof.
  split.
  - induction s as [|c s IH]; cbn [Str.endswith].
    + destruct suf; [|discriminate]. intros _. now exists "".
    + destruct (String.eqb_spec (String c s) suf) as [<-|_].
      * intros _. now exists "".
      * intros H. destruct (IH H) as [p ->]. now exists (String c p).
  - intros [p ->]. induction p as [|c p IH].
    + apply endswith_refl.
    + change (String c p ++ suf)%string with (String c (p ++ suf)).
      cbn [Str.endswith]. now destruct (String.eqb _ suf).
Qed.

Lemma lower_app a b : Str.lower (a ++ b) = (Str.lower a ++ Str.lower b)%string.
Proof. induction a as [|c a IH]; simpl; [reflexivity | now rewrite IH]. Qed.

Lemma lower_split s p q :
  Str.lower s = (p ++ q)%string ->
  exists a b, s = (a ++ b)%string /\ Str.lower a = p /\ Str.lower b = q.
Proof.
  revert s. induction p as [|c p IH]; intros s H.
  - exists "", s. auto.
  - destruct s as [|d s]; [discriminate|]. simpl in H. injection H as Hc Hs.
    destruct (IH s Hs) as (a & b & -> & <- & <-).
    exists (String d a), b. simpl. now rewrite Hc.
Qed.

Lemma lower_char_same_char c d :
  Str.is_upper d = false -> (Str.lower_char c = d <-> same_char c d).
Proof.
  intros Hd. split.
  - intros <-. revert Hd.
    destruct c as [[] [] [] [] [] [] [] []]; intros Hd;
      first [ left; reflexivity
            | right; left; vm_compute; tauto
            | discriminate Hd ].
  - intros [-> | [H | H]].
    + unfold Str.lower_char. now rewrite Hd.
    + unfold LETTERS in H. cbn in H.
      repeat (destruct H as [[= <- <-] | H]; [reflexivity|]). destruct H.
    + unfold LETTERS in H. cbn in H.
      repeat (destruct H as [[= <- <-] | H]; [discriminate Hd|]). destruct H.
Qed.

Lemma lower_same s suf :
  Forall (fun c => Str.is_upper c = false) (list_ascii_of_string suf) ->
  (Str.lower s = suf <->
   Forall2 same_char (list_ascii_of_string s) (list_ascii_of_string suf)).
Proof.
  revert suf. induction s as [|c s IH]; intros [|d suf] Hsuf; simpl.
  - split; [constructor | reflexivity].
  - split; [discriminate | intros H; inversion H].
  - split; [discriminate | intros H; inversion H].
  - simpl in Hsuf. apply Forall_cons in Hsuf as [Hd Hsuf]. split.
    + intros [= Hc Hs]. constructor.
      * now apply lower_char_same_char.
      * now apply IH.
    + intros H. inversion H as [|? ? ? ? Hc Hs]; subst.
      apply (lower_char_same_char _ _ Hd) in Hc. apply (IH _ Hsuf) in Hs.
      now rewrite Hc, Hs.
Qed.

(** The locator's test is the case-insensitive suffix match, for a suffix
    without upper-case letters. *)
Lemma endswith_lower_matches suf nm :
  Forall (fun c => Str.is_upper c = false) (list_ascii_of_string suf) ->
  (Str.endswith (Str.lower nm) suf = true <-> matches suf nm).
Proof.
  intros Hsuf. rewrite endswith_app. unfold matches. split.
  - intros [p H]. destruct (lower_split _ _ _ H) as (a & b & -> & _ & Hb).
    exists a, b. split; [reflexivity|]. now apply lower_same.
  - intros (a & b & -> & H). apply (lower_same _ _ Hsuf) in H.
    exists (Str.lower a). now rewrite lower_app, H.
Qed.

Lemma endswith_slash nm : Str.endswith nm "/" = is_directory nm.
Proof.
  unfold is_directory.
  destruct (Str.endswith nm "/") eqn:E.
  - apply endswith_app in E as [p ->].
    assert (H : forall p, list_ascii_of_string (p ++ "/") = list_ascii_of_string p ++ ["/"%char]).
    { clear. induction p as [|c p IH]; simpl; [reflexivity | now rewrite IH]. }
    rewrite H, rev_app_distr. reflexivity.
  - destruct (rev (list_ascii_of_string nm)) as [|c l] eqn:R; [reflexivity|].
    destruct (Ascii.eqb_spec c "/") as [->|Hc].
    + exfalso. assert (Str.endswith nm "/" = true); [|congruence].
      apply endswith_app. exists (string_of_list_ascii (rev l)).
      rewrite <- (string_of_list_ascii_of_string nm).
      rewrite <- (rev_involutive (list_ascii_of_string nm)), R. simpl.
      generalize (rev l). clear. induction l as [|c l IH]; simpl; [reflexivity | now rewrite IH].
    + destruct c as [[] [] [] [] [] [] [] []]; try reflexivity. now destruct Hc.
Qed.

Lemma first_with_suffix_Some suf files nm :
  Forall (fun c => Str.is_upper c = false) (list_ascii_of_string suf) ->
  first_with_suffix suf files = Some nm <-> first_match suf files nm.
Proof.
  intros Hsuf. split.
  - induction files as [|x rest IH]; simpl; [discriminate|].
    destruct (Str.endswith (Str.lower x) suf) eqn:E.
    + intros [= ->]. exists [], rest. split; [reflexivity|].
      split; [now apply endswith_lower_matches | intros ? []].
    + intros H. destruct (IH H) as (b & a & -> & Hm & Hb).
      exists (x :: b), a. split; [reflexivity|]. split; [exact Hm|].
      intros y [<- | Hy]; [|auto].
      intros Hy%(endswith_lower_matches _ _ Hsuf). congruence.
  - intros (b & a & -> & Hm & Hb).
    induction b as [|x b IH]; simpl.
    + apply (endswith_lower_matches _ _ Hsuf) in Hm. now rewrite Hm.
    + destruct (Str.endswith (Str.lower x) suf) eqn:E.
      * exfalso. apply (Hb x); [now left|].
        now apply endswith_lower_matches.
      * apply IH. intros y Hy. apply Hb. now right.
Qed.

Lemma first_with_suffix_None suf files :
  Forall (fun c => Str.is_upper c = false) (list_ascii_of_string suf) ->
  first_with_suffix suf files = None <-> no_match suf files.
Proof.
  intros Hsuf. unfold no_match.
  induction files as [|x rest IH]; simpl.
  - split; [intros _ ? [] | reflexivity].
  - destruct (Str.endswith (Str.lower x) suf) eqn:E.
    + split; [discriminate|]. intros H. exfalso. apply (H x); [now left|].
      now apply endswith_lower_matches.
    + rewrite IH. split.
      * intros H y [<- | Hy]; [|auto].
        intros Hy%(endswith_lower_matches _ _ Hsuf). congruence.
      * intros H y Hy. apply H. now right.
Qed.

Lemma first_match_not_no_match suf files nm :
  first_match suf files nm -> no_match suf files -> False.
Proof.
  intros (b & a & -> & Hm & _) Hn. apply (Hn nm); [|exact Hm].
  apply in_or_app. right. now left.
Qed.

Lemma first_match_unique suf files nm nm' :
  Forall (fun c => Str.is_upper c = false) (list_ascii_of_string suf) ->
  first_match suf files nm -> first_match suf files nm' -> nm = nm'.
Proof.
  intros Hsuf H H'. apply (first_with_suffix_Some _ _ _ Hsuf) in H, H'. congruence.
Qed.

(** The files the locator looks at are the members that are not directory
    entries. *)
Lemma files_members (names : list string) :
  List.filter (fun n => negb (Str.endswith n "/")) names = members names.
Proof.
  unfold members. induction names as [|n names IH]; simpl; [reflexivity|].
  now rewrite endswith_slash, IH.
Qed.

End LocatorFacts.

(** C2. The locator follows the three rules in priority order, the first
    member in listing order winning within a rule, directory entries left
    out: its result is the one the specification's [locate] relation
    allows, and it raises the not-found error exactly when no member matches
    any rule. *)
Theorem find_data_member_locates :
  forall (C : Type) (z : ZipFile C),
    let files := LocatorSpec.members (namelist z) in
    (forall r, find_data_member z = r <-> LocatorSpec.locate files r) /\
    (find_data_member z = Raise FileNotFoundError <->
     forall nm, In nm files ->
       ~ LocatorSpec.matches "wdbc.data" nm /\
       ~ LocatorSpec.matches ".csv" nm /\
       ~ LocatorSpec.matches ".data" nm).
Proof.
  intros C z files.
  assert (H1 : Forall (fun c => Str.is_upper c = false) (list_ascii_of_string "wdbc.data"))
    by (repeat constructor).
  assert (H2 : Forall (fun c => Str.is_upper c = false) (list_ascii_of_string ".csv"))
    by (repeat constructor).
  assert (H3 : Forall (fun c => Str.is_upper c = false) (list_ascii_of_string ".data"))
    by (repeat constructor).
  assert (Hrun : LocatorSpec.locate files (find_data_member z)).
  { unfold find_data_member. rewrite files_members. fold files.
    destruct (first_with_suffix "wdbc.data" files) eqn:E1.
    { apply LocatorSpec.locate_wdbc. now apply first_with_suffix_Some. }
    apply (first_with_suffix_None _ _ H1) in E1.
    destruct (first_with_suffix ".csv" files) eqn:E2.
    { apply LocatorSpec.locate_csv; [assumption|]. now apply first_with_suffix_Some. }
    apply (first_with_suffix_None _ _ H2) in E2.
    destruct (first_with_suffix ".data" files) eqn:E3.
    { apply LocatorSpec.locate_data; try assumption. now apply first_with_suffix_Some. }
    apply (first_with_suffix_None _ _ H3) in E3.
    now apply LocatorSpec.locate_not_found. }
  assert (Hdet : forall r r', LocatorSpec.locate files r -> LocatorSpec.locate files r' -> r = r').
  { intros r r' H H'.
    destruct H; destruct H';
      repeat match goal with
        | Hf : LocatorSpec.first_match ?s files _, Hn : LocatorSpec.no_match ?s files |- _ =>
            exfalso; exact (first_match_not_no_match _ _ _ Hf Hn)
        | Hf : LocatorSpec.first_match ?s files ?a, Hg : LocatorSpec.first_match ?s files ?b |- _ =>
            first [ rewrite (first_match_unique _ _ _ _ H1 Hf Hg)
                  | rewrite (first_match_unique _ _ _ _ H2 Hf Hg)
                  | rewrite (first_match_unique _ _ _ _ H3 Hf Hg) ]; reflexivity
        end; reflexivity. }
  split.
  - intros r. split; [intros <-; exact Hrun | intros H; exact (Hdet _ _ Hrun H)].
  - split.
    + intros E. rewrite E in Hrun. inversion Hrun as [| | |G1 G2 G3].
      intros nm Hin. repeat split; [apply G1 | apply G2 | apply G3]; exact Hin.
    + intros H. apply (Hdet _ _ Hrun).
      apply LocatorSpec.locate_not_found; intros nm Hin; apply (H nm Hin).
Qed.

(** An archive whose members differ from the suffixes in case: the
    directory entry and the note are passed over, the export is passed over
    for the member of the first rule, although it comes later. *)
Lemma find_data_member_locates_witness :
  find_data_member
    [("WDBC.DATA/", tt); ("Notes.txt", tt); ("Data/Export.CSV", tt);
     ("Data/WDBC.Data", tt)]
  = Ok ("Data/WDBC.Data", false)
  /\ LocatorSpec.locate ["Notes.txt"; "Data/Export.CSV"; "Data/WDBC.Data"]
       (Ok ("Data/WDBC.Data", false))
  /\ find_data_member [("Data/", tt); ("Data/Export.CSV", tt); ("a.DaTa", tt)]
     = Ok ("Data/Export.CSV", true)
  /\ find_data_member [("Data/", tt); ("Notes.txt", tt); ("b.Data", tt); ("a.data", tt)]
     = Ok ("b.Data", false)
  /\ find_data_member [("data.csv/", tt); ("wdbc.data.txt", tt)]
     = Raise FileNotFoundError
  /\ (forall nm, In nm ["wdbc.data.txt"] ->
       ~ LocatorSpec.matches "wdbc.data" nm /\
       ~ LocatorSpec.matches ".csv" nm /\
       ~ LocatorSpec.matches ".data" nm).
Proof.
  split; [reflexivity|]. split.
  { apply (proj1 (find_data_member_locates unit
                    [("WDBC.DATA/", tt); ("Notes.txt", tt); ("Data/Export.CSV", tt);
                     ("Data/WDBC.Data", tt)])).
    reflexivity. }
  split; [reflexivity|]. split; [reflexivity|]. split; [reflexivity|].
  apply (proj2 (find_data_member_locates unit
                  [("data.csv/", tt); ("wdbc.data.txt", tt)])).
  reflexivity.
Defined.

(* ===================================================================== *)
(** * Loading a headerless member                                          *)
(* ===================================================================== *)

Section LoaderFacts.
Context {P : Pandas}.

(** The official names are already normalized, [diagnosis] is among them
    and [id] comes first: the normalizer returns such a frame as it is. *)
Lemma normalize_schema_official (f : nat -> string -> Series) :
  normalize_schema (imap (fun i n => (n, f i n)) COLUMN_NAMES)
  = Ok (imap (fun i n => (n, f i n)) COLUMN_NAMES).
Proof. reflexivity. Qed.

Lemma load_headerless (fs : FileSystem) zip_path z member rows :
  fs zip_path = Some z ->
  find_data_member z = Ok (member, false) ->
  zip_read z member = Ok rows ->
  load_wbcd_from_zip fs zip_path
  = read_csv_names COLUMN_NAMES rows ≫= normalize_schema.
Proof.
  intros Hfs Hfind Hread.
  unfold load_wbcd_from_zip, load_wbcd_from_zip_with, read_table.
  rewrite Hfs, Hfind. simpl. rewrite Hread. reflexivity.
Qed.

Lemma existsb_overlong (first : list string) (rest : Content) :
  existsb (fun r => (max (length first) 32 <? length r)%nat) rest = true
  <-> Exists (fun r => (max (length first) 32 < length r)%nat) rest.
Proof.
  rewrite existsb_exists, Exists_exists. split.
  - intros (r & Hin & Hr). exists r. split; [now apply list_elem_of_In|].
    now apply Nat.ltb_lt.
  - intros (r & Hin & Hr). exists r. split; [now apply list_elem_of_In|].
    now apply Nat.ltb_lt.
Qed.

(** What [read_csv_names] makes of the official names. *)
Lemma read_csv_names_official (rows : Content) :
  (overlong_line rows /\ read_csv_names COLUMN_NAMES rows = Raise ParserError)
  \/ (~ overlong_line rows /\
      exists f, read_csv_names COLUMN_NAMES rows
                = Ok (imap (fun i n => (n, f i n)) COLUMN_NAMES) /\
                (Forall (fun r => (length r <= 32)%nat) rows ->
                 imap (fun i n => (n, f i n)) COLUMN_NAMES = positional_frame rows)).
Proof.
  unfold read_csv_names, overlong_line.
  destruct rows as [|first rest].
  - right. split; [intros (? & ? & [=] & _)|].
    exists (fun _ _ => infer_column []). split; reflexivity.
  - change (length COLUMN_NAMES) with 32%nat.
    destruct (existsb _ rest) eqn:Hlong.
    + left. split; [|reflexivity]. exists first, rest. split; [reflexivity|].
      now apply existsb_overlong.
    + right. split.
      * intros (f' & r' & [= <- <-] & Hex). apply existsb_overlong in Hex. congruence.
      * exists (fun i _ => infer_column
                   (map (fun r => nth (length first - 32 + i) r "") (first :: rest))).
        split; [reflexivity|].
        intros [Hfirst _]%Forall_cons.
        replace (length first - 32)%nat with 0%nat by lia. reflexivity.
Qed.

End LoaderFacts.

(** C4, as the code has it.  For a headerless member: when no line has more
    than 32 fields (in particular when all have exactly 32) loading succeeds
    and the fixed 32-name sequence is assigned positionally, the fields
    missing from a short line being empty; loading fails, with the parser's
    structural error and without a table, exactly when a line after the
    first has more fields than both 32 and the first line. *)
Theorem headerless_load :
  forall (P : Pandas) (fs : FileSystem) (zip_path : string)
         (z : ZipFile Content) (member : string) (rows : Content),
    fs zip_path = Some z ->
    find_data_member z = Ok (member, false) ->
    zip_read z member = Ok rows ->
    (Forall (fun r => (length r <= 32)%nat) rows ->
     load_wbcd_from_zip fs zip_path = Ok (positional_frame rows)) /\
    (load_wbcd_from_zip fs zip_path = Raise ParserError <-> overlong_line rows) /\
    (forall e, load_wbcd_from_zip fs zip_path = Raise e -> e = ParserError).
Proof.
  intros P fs zip_path z member rows Hfs Hfind Hread.
  rewrite (load_headerless fs zip_path z member rows Hfs Hfind Hread).
  destruct (read_csv_names_official rows) as [[Hlong ->] | (Hshort & f & -> & Hpos)];
    unfold mbind, result_bind.
  - split; [|split].
    + intros Hall. exfalso. destruct Hlong as (first & rest & -> & Hex).
      apply Forall_cons in Hall as [Hfirst Hrest].
      apply Exists_exists in Hex as (r & Hin & Hr).
      rewrite Forall_forall in Hrest. specialize (Hrest _ Hin). lia.
    + tauto.
    + now intros e [= <-].
  - rewrite normalize_schema_official.
    split; [|split].
    + intros Hall. now rewrite (Hpos Hall).
    + split; [discriminate | tauto].
    + discriminate.
Qed.

Lemma headerless_load_witness :
  find_data_member Examples.short_line = Ok ("wdbc.data", false) /\
  @load_wbcd_from_zip Plain.pandas (fun _ => Some Examples.short_line) "wdbc.zip"
  = Ok (@positional_frame Plain.pandas [["842302"; "M"]]).
Proof.
  split; [reflexivity|].
  apply (headerless_load Plain.pandas (fun _ => Some Examples.short_line) "wdbc.zip"
           Examples.short_line "wdbc.data" [["842302"; "M"]]
           eq_refl eq_refl eq_refl).
  repeat constructor.
Defined.

(** C4 as stated fails: the only line of the member has two fields, not 32,
    and loading raises nothing, whatever the parsers. *)
Lemma short_line_is_loaded :
  find_data_member Examples.short_line = Ok ("wdbc.data", false) /\
  zip_read Examples.short_line "wdbc.data" = Ok [["842302"; "M"]] /\
  ~ Forall (fun r : list string => length r = 32%nat) [["842302"; "M"]] /\
  ~ exists (P : Pandas) (e : exn),
      load_wbcd_from_zip (fun _ => Some Examples.short_line) "wdbc.zip" = Raise e.
Proof.
  split; [reflexivity|]. split; [reflexivity|]. split.
  - intros [H _]%Forall_cons. discriminate H.
  - intros (P & e & H).
    assert (E : load_wbcd_from_zip (fun _ => Some Examples.short_line) "wdbc.zip"
                = Ok (positional_frame [["842302"; "M"]])) by reflexivity.
    rewrite E in H. discriminate H.
Qed.

(* ===================================================================== *)
(** * Schema normalizer                                                    *)
(* ===================================================================== *)

Section NormalizerFacts.

Lemma normalized_labels_map (t : DataFrame) :
  normalized_labels t ->
  map (fun c => (normalize_name (fst c), snd c)) t = t.
Proof.
  unfold normalized_labels, columns. induction t as [|[n s] t IH]; simpl; intros H.
  - reflexivity.
  - apply Forall_cons in H as [Hn Ht]. simpl in Hn. now rewrite Hn, IH.
Qed.

Lemma rename_first c0 s (rest : DataFrame) new :
  ~ In c0 (columns rest) ->
  rename ((c0, s) :: rest) c0 new = (new, s) :: rest.
Proof.
  intros Hfresh. unfold rename. simpl. rewrite String.eqb_refl. f_equal.
  induction rest as [|[n x] rest IH]; simpl; [reflexivity|].
  simpl in Hfresh. destruct (String.eqb_spec n c0); [tauto|]. rewrite IH; tauto.
Qed.

Lemma select_first c0 s (rest : DataFrame) :
  select ((c0, s) :: rest) c0
  = Ok (if Str.mem c0 (columns rest)
        then SubFrame (s :: map snd (List.filter (fun c => String.eqb (fst c) c0) rest))
        else OneColumn s).
Proof.
  unfold select. cbn [List.filter fst]. rewrite String.eqb_refl.
  induction rest as [|[n x] rest IH]; [reflexivity|].
  cbn [List.filter fst columns map Str.mem]. fold (columns rest).
  rewrite (String.eqb_sym c0 n). destruct (String.eqb n c0); [reflexivity|].
  destruct (Str.mem c0 (columns rest));
    destruct (List.filter (fun c => String.eqb (fst c) c0) rest);
    first [ reflexivity | discriminate IH | exact IH ].
Qed.

(** The program's own identifier test never raises on the first column; it
    fails when another column carries the first column's label. *)
Lemma looks_like_id_first c0 s (rest : DataFrame) :
  looks_like_id ((c0, s) :: rest) c0
  = Ok (negb (Str.mem c0 (columns rest))
        && first_column_passes_id_test ((c0, s) :: rest)).
Proof.
  unfold looks_like_id. rewrite select_first.
  unfold mbind, result_bind. unfold first_column_passes_id_test.
  destruct (Str.mem c0 (columns rest)); [reflexivity|].
  cbn [is_numeric_dtype_of negb andb]. now destruct (is_numeric_dtype s).
Qed.

Lemma mem_In x xs : Str.mem x xs = true <-> In x xs.
Proof.
  induction xs as [|y ys IH]; simpl; [split; [discriminate | tauto]|].
  destruct (String.eqb x y) eqn:E.
  - apply String.eqb_eq in E. subst. tauto.
  - apply String.eqb_neq in E. rewrite IH. split; [tauto|]. intros [H|H]; congruence.
Qed.

Lemma looks_like_id_unique c0 s (rest : DataFrame) :
  unique_labels ((c0, s) :: rest) ->
  looks_like_id ((c0, s) :: rest) c0
  = Ok (first_column_passes_id_test ((c0, s) :: rest)).
Proof.
  intros Hnd. rewrite looks_like_id_first.
  unfold unique_labels in Hnd. simpl in Hnd. apply NoDup_cons in Hnd as [Hnd _].
  destruct (Str.mem c0 (columns rest)) eqn:E; [|reflexivity].
  apply mem_In in E. now apply list_elem_of_In in E.
Qed.

Lemma looks_like_id_fails c0 s (rest : DataFrame) :
  first_column_passes_id_test ((c0, s) :: rest) = false ->
  looks_like_id ((c0, s) :: rest) c0 = Ok false.
Proof. intros H. rewrite looks_like_id_first, H. now rewrite andb_false_r. Qed.

End NormalizerFacts.




(** C10. If evaluating the identifier test on the first column raises,
    whatever the exception, it is swallowed: loading returns the table
    read, its labels normalized and its first column not relabelled. *)
Theorem heuristic_exception_is_swallowed :
  forall (P : Pandas) (heuristic : DataFrame -> string -> result bool)
         (fs : FileSystem) (zip_path : string)
         (df : DataFrame) (first_col : string) (others : list string) (e : exn),
    let df' := map (fun c => (normalize_name (fst c), snd c)) df in
    read_table fs zip_path = Ok df ->
    has_column df' "diagnosis" = true ->
    columns df' = first_col :: others ->
    heuristic df' first_col = Raise e ->
    load_wbcd_from_zip_with heuristic fs zip_path = Ok df' /\
    normalize_schema_with heuristic df = Ok df'.
Proof.
  intros P heuristic fs zip_path df first_col others e df' Hread Hdiag Hcols Hraise.
  assert (Hnorm : normalize_schema_with heuristic df = Ok df').
  { unfold normalize_schema_with. fold df'.
    rewrite Hdiag, Hcols. simpl negb. cbv iota.
    destruct (negb (String.eqb first_col "id")); [|reflexivity].
    now rewrite Hraise. }
  split; [|exact Hnorm].
  unfold load_wbcd_from_zip_with. rewrite Hread. exact Hnorm.
Qed.

Lemma heuristic_exception_is_swallowed_witness :
  @read_table Plain.pandas (fun _ => Some Examples.csv_archive) "wdbc.zip"
  = Ok [("Sample", SObject [VStr "a"; VStr "b"]);
        ("Diagnosis", SObject [VStr "M"; VStr "B"])] /\
  @load_wbcd_from_zip_with Plain.pandas (fun _ _ => Raise TypeError)
    (fun _ => Some Examples.csv_archive) "wdbc.zip"
  = Ok [("sample", SObject [VStr "a"; VStr "b"]);
        ("diagnosis", SObject [VStr "M"; VStr "B"])].
Proof.
  split; [reflexivity|].
  apply (heuristic_exception_is_swallowed Plain.pandas (fun _ _ => Raise TypeError)
           (fun _ => Some Examples.csv_archive) "wdbc.zip"
           [("Sample", SObject [VStr "a"; VStr "b"]);
            ("Diagnosis", SObject [VStr "M"; VStr "B"])]
           "sample" ["diagnosis"] TypeError eq_refl eq_refl eq_refl eq_refl).
Defined.

(* ===================================================================== *)
(** * The store and the frame operations                                   *)
(* ===================================================================== *)

Section StoreFacts.

Lemma bind_ok {A B} (m : M A) (k : A -> M B) h h' a :
  m h = (h', Ok a) -> bind m k h = k a h'.
Proof. intros E. unfold bind. now rewrite E. Qed.

Lemma bind_raise {A B} (m : M A) (k : A -> M B) h h' e :
  m h = (h', Raise e) -> bind m k h = (h', Raise e).
Proof. intros E. unfold bind. now rewrite E. Qed.

Lemma deref_eq (h : store) r t : h !! r = Some t -> deref r h = (h, Ok t).
Proof. intros E. unfold deref. now rewrite E. Qed.

Lemma getitem_at_eq (h : store) r t label :
  h !! r = Some t -> getitem_at r label h = (h, getitem t label).
Proof. intros E. unfold getitem_at. now rewrite (bind_ok _ _ _ _ _ (deref_eq _ _ _ E)). Qed.

Lemma setitem_at_eq (h : store) r t label s :
  h !! r = Some t -> setitem_at r label s h = (<[r := setitem t label s]> h, Ok tt).
Proof. intros E. unfold setitem_at. now rewrite E. Qed.

Lemma columns_at_eq (h : store) r t :
  h !! r = Some t -> columns_at r h = (h, Ok (columns t)).
Proof. intros E. unfold columns_at. now rewrite (bind_ok _ _ _ _ _ (deref_eq _ _ _ E)). Qed.

Lemma drop_at_eq (h : store) r t labels :
  h !! r = Some t ->
  drop_at r labels h =
    match drop t labels with
    | Ok t' => (h ++ [t'], Ok (length h))
    | Raise e => (h, Raise e)
    end.
Proof.
  intros E. unfold drop_at. rewrite (bind_ok _ _ _ _ _ (deref_eq _ _ _ E)).
  unfold bind, lift, alloc. now destruct (drop t labels).
Qed.

Lemma replace_sentinels_at_eq (h : store) r t :
  h !! r = Some t ->
  replace_sentinels_at r h = (h ++ [replace_sentinels t], Ok (length h)).
Proof.
  intros E. unfold replace_sentinels_at.
  now rewrite (bind_ok _ _ _ _ _ (deref_eq _ _ _ E)).
Qed.

Lemma lookup_insert_same (h : store) r t t' :
  h !! r = Some t -> <[r := t']> h !! r = Some t'.
Proof. intros E. apply list_lookup_insert_eq. eapply lookup_lt_Some, E. Qed.

End StoreFacts.

Section FrameFacts.

Lemma getitem_setitem t label s : getitem (setitem t label s) label = Ok s.
Proof.
  induction t as [|[n old] rest IH]; simpl.
  - now rewrite String.eqb_refl.
  - destruct (String.eqb n label) eqn:E; simpl; now rewrite E.
Qed.

Lemma setitem_setitem t label s s' :
  setitem (setitem t label s) label s' = setitem t label s'.
Proof.
  induction t as [|[n old] rest IH]; simpl.
  - now rewrite String.eqb_refl.
  - destruct (String.eqb n label) eqn:E; simpl; rewrite E; [reflexivity | now rewrite IH].
Qed.

Lemma setitem_getitem t label s : getitem t label = Ok s -> setitem t label s = t.
Proof.
  induction t as [|[n old] rest IH]; simpl; [discriminate|].
  destruct (String.eqb n label) eqn:E.
  - now intros [= ->].
  - intros H. now rewrite IH.
Qed.

Lemma columns_setitem t label s s0 :
  getitem t label = Ok s0 -> columns (setitem t label s) = columns t.
Proof.
  induction t as [|[n old] rest IH]; simpl; [discriminate|].
  destruct (String.eqb n label) eqn:E; simpl; [reflexivity|].
  intros H. now rewrite (IH H).
Qed.

Lemma getitem_setitem_ne t label s other :
  other <> label -> getitem (setitem t label s) other = getitem t other.
Proof.
  intros Hne. induction t as [|[n old] rest IH]; simpl.
  - destruct (String.eqb label other) eqn:E; [|reflexivity].
    apply String.eqb_eq in E. congruence.
  - destruct (String.eqb n label) eqn:E; simpl.
    + apply String.eqb_eq in E. subst n.
      destruct (String.eqb label other) eqn:E'; [|reflexivity].
      apply String.eqb_eq in E'. congruence.
    + now rewrite IH.
Qed.

End FrameFacts.

Section PreprocessFacts.
Context {P : Pandas}.

Lemma columns_coerce_column u c : columns (coerce_column u c) = columns u.
Proof.
  unfold coerce_column. destruct (getitem u c) eqn:E; [|reflexivity].
  eapply columns_setitem, E.
Qed.

Lemma for_each_coerce (body : string -> M unit) q :
  (forall c u h, h !! q = Some u -> has_column u c = true ->
     body c h = (<[q := coerce_column u c]> h, Ok tt)) ->
  forall cs u h, h !! q = Some u ->
    Forall (fun c => has_column u c = true) cs ->
    for_each cs body h = (<[q := fold_left coerce_column cs u]> h, Ok tt).
Proof.
  intros Hbody cs. induction cs as [|c cs IH]; intros u h Hq Hall; simpl.
  - unfold ret. now rewrite list_insert_id.
  - inversion Hall as [|? ? Hc Hcs]; subst.
    rewrite (bind_ok _ _ _ _ _ (Hbody c u h Hq Hc)).
    rewrite (IH (coerce_column u c)).
    + now rewrite list_insert_insert_eq.
    + eapply lookup_insert_same, Hq.
    + unfold has_column. now rewrite columns_coerce_column.
Qed.

Lemma getitem_app_fresh pre n s post :
  ~ In n (columns pre) -> getitem (pre ++ (n, s) :: post) n = Ok s.
Proof.
  induction pre as [|[m x] pre IH]; simpl; intros Hn.
  - now rewrite String.eqb_refl.
  - destruct (String.eqb m n) eqn:E.
    + apply String.eqb_eq in E. tauto.
    + apply IH. tauto.
Qed.

Lemma setitem_app_fresh pre n s v post :
  ~ In n (columns pre) ->
  setitem (pre ++ (n, s) :: post) n v = pre ++ (n, v) :: post.
Proof.
  induction pre as [|[m x] pre IH]; simpl; intros Hn.
  - now rewrite String.eqb_refl.
  - destruct (String.eqb m n) eqn:E.
    + apply String.eqb_eq in E. tauto.
    + rewrite IH; tauto.
Qed.

Lemma fold_coerce_features pre post :
  NoDup (columns (pre ++ post)) ->
  fold_left coerce_column
    (List.filter (fun c => negb (String.eqb c "diagnosis")) (columns post))
    (pre ++ post)
  = pre ++ coerce_features post.
Proof.
  revert pre. induction post as [|[n s] post IH]; intros pre Hnd; simpl.
  - reflexivity.
  - assert (Hfresh : ~ In n (columns pre)).
    { unfold columns in *. rewrite map_app in Hnd. simpl in Hnd.
      apply NoDup_app in Hnd as (_ & Hdis & _).
      intros Hin. apply list_elem_of_In in Hin. apply (Hdis _ Hin). now left. }
    destruct (String.eqb n "diagnosis") eqn:E; simpl.
    + specialize (IH (pre ++ [(n, s)])). rewrite <- !app_assoc in IH. simpl in IH.
      apply IH. exact Hnd.
    + unfold coerce_column at 2. rewrite getitem_app_fresh by exact Hfresh.
      rewrite setitem_app_fresh by exact Hfresh.
      specialize (IH (pre ++ [(n, to_numeric s)])). rewrite <- !app_assoc in IH.
      simpl in IH. apply IH.
      unfold columns in *. rewrite map_app in *. exact Hnd.
Qed.

Lemma drop_filter_ok t labels :
  Forall (fun l => has_column t l = true) labels ->
  drop t labels = Ok (List.filter (fun c => negb (Str.mem (fst c) labels)) t).
Proof.
  intros H. unfold drop.
  destruct (List.find _ labels) as [l|] eqn:E; [|reflexivity].
  apply find_some in E as [Hin Hl]. rewrite Forall_forall in H.
  apply list_elem_of_In in Hin. rewrite (H _ Hin) in Hl. discriminate.
Qed.

(** The label stage in the store. *)
Lemma encode_label_run (h : store) r t (K : unit -> M ref) :
  h !! r = Some t ->
  forall d, getitem t "diagnosis" = Ok d ->
  bind (if is_numeric_dtype d then
          d <- getitem_at r "diagnosis" ;;
          v <- lift (astype_int d) ;;
          setitem_at r "diagnosis" v
        else
          d <- getitem_at r "diagnosis" ;;
          setitem_at r "diagnosis" (map_dict mapping d) ;;
          d <- getitem_at r "diagnosis" ;;
          (if isna_any d then
             d1 <- getitem_at r "diagnosis" ;;
             d2 <- getitem_at r "diagnosis" ;;
             setitem_at r "diagnosis" (fillna d1 (replace_dict alt_map d2))
           else ret tt) ;;
          d <- getitem_at r "diagnosis" ;;
          v <- lift (astype_int d) ;;
          setitem_at r "diagnosis" v) K h
  = match snd (encode_label t) with
    | Ok u => K u (<[r := fst (encode_label t)]> h)
    | Raise e => (<[r := fst (encode_label t)]> h, Raise e)
    end.
Proof.
  intros Hr d Hd. unfold encode_label. rewrite Hd.
  destruct (is_numeric_dtype d) eqn:Hnum.
  - unfold bind, lift. rewrite (getitem_at_eq _ _ _ _ Hr), Hd.
    destruct (astype_int d) as [v|e]; simpl.
    + now rewrite (setitem_at_eq _ _ _ _ _ Hr).
    + now rewrite (list_insert_id _ _ _ Hr).
  - set (m := map_dict mapping d).
    assert (H1 : <[r := setitem t "diagnosis" m]> h !! r = Some (setitem t "diagnosis" m))
      by (eapply lookup_insert_same, Hr).
    unfold bind, lift, ret.
    rewrite (getitem_at_eq _ _ _ _ Hr), Hd. cbv beta iota.
    rewrite (setitem_at_eq _ _ _ _ _ Hr). fold m. cbv beta iota.
    rewrite (getitem_at_eq _ _ _ _ H1), getitem_setitem. cbv beta iota.
    destruct (isna_any m) eqn:Hna.
    + set (m' := fillna m (replace_dict alt_map m)).
      assert (H2 : <[r := setitem t "diagnosis" m']> h !! r
                   = Some (setitem t "diagnosis" m'))
        by (eapply lookup_insert_same, Hr).
      rewrite (getitem_at_eq _ _ _ _ H1), getitem_setitem. cbv beta iota.
      rewrite (getitem_at_eq _ _ _ _ H1), getitem_setitem. cbv beta iota.
      rewrite (setitem_at_eq _ _ _ _ _ H1). fold m'.
      rewrite list_insert_insert_eq, setitem_setitem.
      rewrite (getitem_at_eq _ _ _ _ H2), getitem_setitem. cbv beta iota.
      destruct (astype_int m') as [v|e]; simpl.
      * rewrite (setitem_at_eq _ _ _ _ _ H2).
        now rewrite list_insert_insert_eq, setitem_setitem.
      * reflexivity.
    + rewrite (getitem_at_eq _ _ _ _ H1), getitem_setitem. cbv beta iota.
      destruct (astype_int m) as [v|e]; simpl.
      * rewrite (setitem_at_eq _ _ _ _ _ H1).
        now rewrite list_insert_insert_eq, setitem_setitem.
      * reflexivity.
Qed.

Lemma columns_replace_sentinels t : columns (replace_sentinels t) = columns t.
Proof. unfold columns, replace_sentinels. rewrite map_map. reflexivity. Qed.

Lemma columns_coerce_features t : columns (coerce_features t) = columns t.
Proof.
  unfold columns, coerce_features. rewrite map_map. apply map_ext.
  intros [n s]; simpl. now destruct (String.eqb n "diagnosis").
Qed.

Lemma In_columns_filter f (t : DataFrame) n :
  In n (columns (List.filter f t)) -> In n (columns t).
Proof.
  induction t as [|[m s] t IH]; simpl; [tauto|].
  destruct (f (m, s)); simpl; tauto.
Qed.

Lemma NoDup_columns_filter f (t : DataFrame) :
  NoDup (columns t) -> NoDup (columns (List.filter f t)).
Proof.
  induction t as [|[m s] t IH]; simpl; intros H; [constructor|].
  apply NoDup_cons in H as [Hm Ht].
  destruct (f (m, s)); simpl; [|auto].
  apply NoDup_cons. split; [|auto].
  rewrite list_elem_of_In in *. intros Hin. apply Hm. eapply In_columns_filter, Hin.
Qed.

Lemma has_column_getitem t c :
  has_column t c = true -> exists s, getitem t c = Ok s.
Proof.
  unfold has_column.
  induction t as [|[n s] t IH]; simpl; [discriminate|].
  destruct (String.eqb_spec c n), (String.eqb_spec n c); try congruence; eauto.
Qed.

Lemma getitem_has_column t c s : getitem t c = Ok s -> has_column t c = true.
Proof.
  unfold has_column.
  induction t as [|[n x] t IH]; simpl; [discriminate|].
  destruct (String.eqb_spec c n), (String.eqb_spec n c); try congruence; auto.
Qed.

(** Sentinel replacement and numeric coercion in the store. *)
Lemma coerce_run (h : store) q t2 :
  h !! q = Some t2 -> NoDup (columns t2) ->
  (df <- replace_sentinels_at q ;;
   cols <- columns_at df ;;
   let feature_cols := List.filter (fun c => negb (String.eqb c "diagnosis")) cols in
   for_each feature_cols
     (fun c => s <- getitem_at df c ;; setitem_at df c (to_numeric s)) ;;
   ret df) h
  = (h ++ [coerce_features (replace_sentinels t2)], Ok (length h)).
Proof.
  intros Hq Hnd.
  set (u := replace_sentinels t2).
  assert (Hu : (h ++ [u]) !! length h = Some u).
  { rewrite lookup_app_r by lia. now rewrite Nat.sub_diag. }
  rewrite (bind_ok _ _ _ _ _ (replace_sentinels_at_eq _ _ _ Hq)). fold u.
  rewrite (bind_ok _ _ _ _ _ (columns_at_eq _ _ _ Hu)). cbv zeta.
  erewrite bind_ok.
  2:{ apply (for_each_coerce _ (length h)) with (u := u); [|exact Hu|].
      - intros c u0 h0 Hq0 Hc.
        destruct (has_column_getitem _ _ Hc) as [s Hs].
        unfold bind, lift. rewrite (getitem_at_eq _ _ _ c Hq0), Hs.
        rewrite (setitem_at_eq _ _ _ _ _ Hq0).
        unfold coerce_column. now rewrite Hs.
      - apply Forall_forall. intros c Hc. apply list_elem_of_In, filter_In in Hc as [Hc _].
        unfold has_column. now apply mem_In. }
  unfold ret. f_equal.
  pose proof (fold_coerce_features [] u) as Hfold. simpl in Hfold.
  rewrite Hfold by (subst u; now rewrite columns_replace_sentinels).
  rewrite insert_app_r_alt by lia. now rewrite Nat.sub_diag.
Qed.

Lemma drop_Ok t labels t' :
  drop t labels = Ok t' ->
  t' = List.filter (fun c => negb (Str.mem (fst c) labels)) t.
Proof. unfold drop. destruct (List.find _ labels); now intros [= <-]. Qed.

Lemma NoDup_columns_drop_identifier t t2 :
  drop_identifier t = Ok t2 -> NoDup (columns t) -> NoDup (columns t2).
Proof.
  unfold drop_identifier. destruct (columns t) as [|c0 cs] eqn:Hc; [discriminate|].
  rewrite <- Hc. clear Hc.
  destruct (String.eqb c0 "id").
  - intros H%drop_Ok ?. subst. now apply NoDup_columns_filter.
  - destruct (List.filter _ (columns t)).
    + now intros [= <-].
    + intros H%drop_Ok ?. subst. now apply NoDup_columns_filter.
Qed.

Lemma columns_encode_label t : columns (fst (encode_label t)) = columns t.
Proof.
  unfold encode_label. destruct (getitem t "diagnosis") as [d|] eqn:Hd; [|reflexivity].
  destruct (is_numeric_dtype d).
  - destruct (astype_int d); simpl; [eapply columns_setitem, Hd | reflexivity].
  - destruct (astype_int _); simpl; eapply columns_setitem, Hd.
Qed.

(** Identifier removal in the store: either nothing is dropped and the
    frame stays the same object, or the reduced frame is a new object. *)
Lemma drop_identifier_run (h : store) r t1 (K : ref -> M ref) :
  h !! r = Some t1 ->
  let stage :=
    bind (match columns t1 with
          | [] => raise IndexError
          | c0 :: _ =>
              if String.eqb c0 "id" then drop_at r ["id"]
              else
                let candidate_ids :=
                  List.filter (fun c => Str.mem c ["id"; "unnamed: 0"]) (columns t1) in
                match candidate_ids with
                | [] => ret r
                | _ => drop_at r candidate_ids
                end
          end) K h in
  match drop_identifier t1 with
  | Raise e => stage = (h, Raise e)
  | Ok t2 => (t2 = t1 /\ stage = K r h) \/ stage = K (length h) (h ++ [t2])
  end.
Proof.
  intros Hr. cbv zeta. unfold drop_identifier.
  destruct (columns t1) as [|c0 cs] eqn:Hc; [reflexivity|].
  rewrite <- Hc.
  destruct (String.eqb c0 "id") eqn:Hid.
  - unfold bind. rewrite (drop_at_eq _ _ _ _ Hr).
    destruct (drop t1 ["id"]); [now right | reflexivity].
  - cbv zeta. destruct (List.filter _ (columns t1)) as [|l ls].
    + left. split; reflexivity.
    + unfold bind. rewrite (drop_at_eq _ _ _ _ Hr).
      destruct (drop t1 (l :: ls)); [now right | reflexivity].
Qed.

(** What [preprocess] does to the store and what it returns. *)
Lemma preprocess_spec (h : store) r t :
  h !! r = Some t -> NoDup (columns t) ->
  let t1 := fst (encode_label t) in
  match snd (encode_label t) ≫= (fun _ => drop_identifier t1) with
  | Raise e => preprocess r h = (<[r := t1]> h, Raise e)
  | Ok t2 =>
      exists g,
        preprocess r h =
          (<[r := t1]> h ++ g ++ [coerce_features (replace_sentinels t2)],
           Ok (length h + length g))
  end.
Proof.
  intros Hr Hnd t1. unfold preprocess.
  destruct (getitem t "diagnosis") as [d|e] eqn:Hd.
  2:{ subst t1. unfold encode_label. rewrite Hd. simpl.
      rewrite (bind_raise _ _ h h e).
      - now rewrite (list_insert_id _ _ _ Hr).
      - now rewrite (getitem_at_eq _ _ _ _ Hr), Hd. }
  rewrite (bind_ok _ _ h h d) by now rewrite (getitem_at_eq _ _ _ _ Hr), Hd.
  rewrite (encode_label_run h r t _ Hr d Hd). fold t1.
  destruct (snd (encode_label t)) as [[]|e]; [|reflexivity].
  simpl.
  assert (H1 : <[r := t1]> h !! r = Some t1) by (eapply lookup_insert_same, Hr).
  assert (Hnd1 : NoDup (columns t1)) by (subst t1; now rewrite columns_encode_label).
  rewrite (bind_ok _ _ _ _ _ (columns_at_eq _ _ _ H1)).
  pose proof (drop_identifier_run (<[r := t1]> h) r t1) as Hdrop.
  match goal with
  | |- context [bind _ ?K (<[r := t1]> h)] => specialize (Hdrop K H1)
  end.
  cbv zeta in Hdrop.
  destruct (drop_identifier t1) as [t2|e] eqn:Ht2; [|exact Hdrop].
  pose proof (NoDup_columns_drop_identifier _ _ Ht2 Hnd1) as Hnd2.
  destruct Hdrop as [[-> Hrun] | Hrun].
  - exists []. refine (eq_trans Hrun _).
    refine (eq_trans (coerce_run _ _ _ H1 Hnd2) _). simpl.
    now rewrite length_insert, Nat.add_0_r.
  - exists [t2]. refine (eq_trans Hrun _).
    assert (H2 : (<[r := t1]> h ++ [t2]) !! length (<[r := t1]> h) = Some t2).
    { rewrite lookup_app_r by lia. now rewrite Nat.sub_diag. }
    refine (eq_trans (coerce_run _ _ _ H2 Hnd2) _).
    rewrite length_app, !length_insert. simpl. rewrite <- app_assoc. reflexivity.
Qed.

(** On a frame value: the caller's frame ends as the label stage leaves it
    and the frame returned is the Clean Table. *)
Lemma run_preprocess_clean t :
  NoDup (columns t) ->
  run_preprocess t = (fst (encode_label t), clean t).
Proof.
  intros Hnd. unfold run_preprocess, clean.
  pose proof (preprocess_spec [t] 0 t eq_refl Hnd) as H. cbv zeta in H.
  destruct (encode_label t) as [t1 [[]|e]]; simpl in *.
  - destruct (drop_identifier t1) as [t2|e].
    + destruct H as [g ->]. simpl.
      replace (t1 :: g ++ [coerce_features (replace_sentinels t2)])
        with ((t1 :: g) ++ [coerce_features (replace_sentinels t2)]) by reflexivity.
      rewrite lookup_app_r by (simpl; lia). simpl. now rewrite Nat.sub_diag.
    + now rewrite H.
  - now rewrite H.
Qed.

End PreprocessFacts.

(* ===================================================================== *)
(** * Columns and cells through the stages                                 *)
(* ===================================================================== *)

Section ColumnFacts.
Context {P : Pandas}.

Lemma getitem_filter_label (g : string -> bool) (t : DataFrame) c :
  getitem (List.filter (fun col => g (fst col)) t) c
  = if g c then getitem t c else Raise (KeyError c).
Proof.
  induction t as [|[n s] t IH]; simpl.
  - now destruct (g c).
  - destruct (g n) eqn:Hn; simpl; destruct (String.eqb_spec n c); subst;
      rewrite ?Hn in *; auto.
Qed.

Lemma getitem_replace_sentinels t c :
  getitem (replace_sentinels t) c
  = match getitem t c with
    | Ok s => Ok (replace_sentinels_series s)
    | Raise e => Raise e
    end.
Proof.
  induction t as [|[n s] t IH]; simpl; [reflexivity|].
  now destruct (String.eqb n c).
Qed.

Lemma getitem_coerce_features t c :
  getitem (coerce_features t) c
  = match getitem t c with
    | Ok s => Ok (if String.eqb c "diagnosis" then s else to_numeric s)
    | Raise e => Raise e
    end.
Proof.
  induction t as [|[n s] t IH]; simpl; [reflexivity|].
  destruct (String.eqb n "diagnosis") eqn:Hn; simpl;
    destruct (String.eqb_spec n c); subst; rewrite ?Hn; auto.
Qed.

Lemma getitem_encode_label_ne t c :
  c <> "diagnosis" -> getitem (fst (encode_label t)) c = getitem t c.
Proof.
  intros Hc. unfold encode_label.
  destruct (getitem t "diagnosis") as [d|]; [|reflexivity].
  destruct (is_numeric_dtype d).
  - destruct (astype_int d); simpl; [now apply getitem_setitem_ne | reflexivity].
  - destruct (astype_int _); simpl; now apply getitem_setitem_ne.
Qed.

Lemma getitem_drop t labels t' c :
  drop t labels = Ok t' ->
  getitem t' c = if Str.mem c labels then Raise (KeyError c) else getitem t c.
Proof.
  intros ->%drop_Ok.
  rewrite (getitem_filter_label (fun n => negb (Str.mem n labels))).
  now destruct (Str.mem c labels).
Qed.

Lemma getitem_drop_identifier t t2 c s :
  drop_identifier t = Ok t2 -> getitem t2 c = Ok s -> getitem t c = Ok s.
Proof.
  unfold drop_identifier. destruct (columns t) as [|c0 cs]; [discriminate|].
  assert (Hdrop : forall labels, drop t labels = Ok t2 ->
                    getitem t2 c = Ok s -> getitem t c = Ok s).
  { intros labels H. rewrite (getitem_drop _ _ _ c H).
    now destruct (Str.mem c labels). }
  destruct (String.eqb c0 "id"); [apply Hdrop|].
  destruct (List.filter _ _); [now intros [= <-] | apply Hdrop].
Qed.

(** A feature column of the Clean Table is the column of the same label of
    the input, its sentinels replaced and then coerced. *)
Lemma clean_feature_column t out c s' :
  clean t = Ok out -> c <> "diagnosis" -> getitem out c = Ok s' ->
  exists s, getitem t c = Ok s /\ s' = to_numeric (replace_sentinels_series s).
Proof.
  unfold clean. intros Hclean Hc Hout.
  pose proof (getitem_encode_label_ne t c Hc) as Hlabel.
  destruct (encode_label t) as [t1 [[]|e]]; [|discriminate]. simpl in *.
  destruct (drop_identifier t1) as [t2|e] eqn:Hdrop; [|discriminate].
  simpl in Hclean. injection Hclean as <-.
  rewrite getitem_coerce_features, getitem_replace_sentinels in Hout.
  destruct (getitem t2 c) as [s|e] eqn:Hs; [|discriminate].
  apply String.eqb_neq in Hc. rewrite Hc in Hout. injection Hout as <-.
  exists s. split; [|reflexivity].
  rewrite <- Hlabel. eapply getitem_drop_identifier; eassumption.
Qed.

(** The cell [to_numeric] makes of a cell of a column of text. *)
Lemma to_numeric_cell l i v :
  l !! i = Some v ->
  let p := convert_cell v in
  let out := cells (to_numeric (SObject l)) !! i in
  out = Some (VFloat (float_slot p))
  \/ (saw_float p = false /\ out = Some (VInt (int_slot p)))
  \/ (saw_bool p = true /\ out = Some (VBool (bool_slot p))).
Proof.
  intros Hi p out. subst out. unfold to_numeric.
  assert (Hp : map convert_cell l !! i = Some p).
  { change (map convert_cell l) with (convert_cell <$> l).
    now rewrite list_lookup_fmap, Hi. }
  set (ps := map convert_cell l) in *.
  assert (Hall : forall f, existsb f ps = false -> f p = false).
  { intros f Hf. apply not_true_iff_false. intros Hfp.
    apply not_true_iff_false in Hf. apply Hf, existsb_exists. exists p.
    split; [|exact Hfp]. apply list_elem_of_In, list_elem_of_lookup. eauto. }
  destruct (existsb saw_float ps) eqn:Hf; simpl.
  { left. change (map VFloat (map float_slot ps)) with (VFloat <$> (float_slot <$> ps)).
    now rewrite !list_lookup_fmap, Hp. }
  assert (Hint : (VInt <$> (int_slot <$> ps)) !! i = Some (VInt (int_slot p)))
    by now rewrite !list_lookup_fmap, Hp.
  destruct (existsb saw_int ps) eqn:Hint'; simpl.
  { right. left. split; [now apply Hall | exact Hint]. }
  destruct (existsb saw_bool ps) eqn:Hb; simpl.
  - right. right. pose proof (Hall _ Hf) as Hpf. pose proof (Hall _ Hint') as Hpi.
    assert (Hpb : saw_bool p = true) by (destruct p; try discriminate; reflexivity).
    split; [exact Hpb|].
    change (map VBool (map bool_slot ps)) with (VBool <$> (bool_slot <$> ps)).
    now rewrite !list_lookup_fmap, Hp.
  - right. left. split; [now apply Hall | exact Hint].
Qed.

End ColumnFacts.

Section StageFacts.
Context {P : Pandas}.

Lemma drop_identifier_total t :
  columns t <> [] -> exists t2, drop_identifier t = Ok t2.
Proof.
  unfold drop_identifier. destruct (columns t) as [|c0 cs] eqn:Hc; [congruence|].
  intros _. destruct (String.eqb_spec c0 "id") as [->|_].
  - rewrite drop_filter_ok; [eauto|].
    repeat constructor. unfold has_column. rewrite Hc. reflexivity.
  - rewrite <- Hc. destruct (List.filter _ (columns t)) as [|l ls] eqn:Hf; [eauto|].
    rewrite drop_filter_ok; [eauto|].
    rewrite <- Hf. apply Forall_forall. intros c Hin.
    apply list_elem_of_In, filter_In in Hin as [Hin _].
    unfold has_column. now apply mem_In.
Qed.

Lemma isna_any_SInt zs : isna_any (SInt zs) = false.
Proof. unfold isna_any. simpl. now induction zs. Qed.

(** On a column of text whose cells are all keys of [mapping], the first
    pass already gives an int64 column of 0s and 1s. *)
Lemma map_dict_mapping_keys l :
  label_ok (SObject l) = true ->
  exists zs, map_dict mapping (SObject l) = SInt zs /\
             Forall (fun z => z = 0%Z \/ z = 1%Z) zs.
Proof.
  unfold map_dict. simpl.
  induction l as [|v l IH]; simpl; intros H.
  - exists []. split; [reflexivity | constructor].
  - apply andb_true_iff in H as [Hv Hl].
    destruct (IH Hl) as (zs & Hzs & Hbin).
    destruct (mapM id (map (dict_get_cell mapping) l)) as [ks|] eqn:Hk;
      [|discriminate].
    injection Hzs as <-.
    destruct v as [| | |x|]; try discriminate. simpl in Hv |- *.
    destruct (String.eqb_spec x "M") as [->|_]; simpl;
      [eexists; split; [reflexivity | constructor; auto]|].
    destruct (String.eqb_spec x "B") as [->|_]; simpl;
      [eexists; split; [reflexivity | constructor; auto]|].
    destruct (String.eqb_spec x "m") as [->|_]; simpl;
      [eexists; split; [reflexivity | constructor; auto]|].
    destruct (String.eqb_spec x "b") as [->|_]; simpl;
      [eexists; split; [reflexivity | constructor; auto]|].
    discriminate.
Qed.

Lemma encode_label_ok t d :
  getitem t "diagnosis" = Ok d -> label_ok d = true ->
  snd (encode_label t) = Ok tt.
Proof.
  intros Hd Hok. unfold encode_label. rewrite Hd.
  destruct d as [l|l|l|l].
  - reflexivity.
  - simpl in *. now rewrite Hok.
  - reflexivity.
  - destruct (map_dict_mapping_keys l Hok) as (zs & Hzs & _).
    change (is_numeric_dtype (SObject l)) with false. cbv iota zeta.
    now rewrite Hzs, isna_any_SInt.
Qed.

Lemma valid_label_clean t :
  valid_label t -> exists out, clean t = Ok out.
Proof.
  intros (d & Hd & Hok). unfold clean.
  pose proof (encode_label_ok t d Hd Hok) as Hlab.
  pose proof (columns_encode_label t) as Hcols.
  destruct (encode_label t) as [t1 o]. simpl in *. subst o.
  destruct (drop_identifier_total t1) as [t2 Ht2].
  - rewrite Hcols. intros Hnil. destruct t; [discriminate|discriminate].
  - rewrite Ht2. simpl. eauto.
Qed.

End StageFacts.

(* ===================================================================== *)
(** * Label encoding                                                       *)
(* ===================================================================== *)

Section LabelFacts.
Context {P : Pandas}.

Lemma zip_with_fill_same (l : list float) :
  zip_with (fun a b => if is_nan a then b else a) l l = l.
Proof. induction l as [|a l IH]; simpl; [reflexivity|]. rewrite IH. now destruct (is_nan a). Qed.

(** The second mapping pass reads the column the first pass has already
    written: it finds numbers and NaN there, no text, and fills nothing. *)
Lemma second_pass_fills_nothing d :
  let m := map_dict mapping d in
  fillna m (replace_dict alt_map m) = m.
Proof.
  unfold map_dict. destruct (mapM id _); simpl; [reflexivity|].
  now rewrite zip_with_fill_same.
Qed.



(** What the label stage casts to integer has a numeric dtype: the cast of
    a column of dtype [object] is never reached. *)
Lemma label_cast_is_numeric d :
  let m := map_dict mapping d in
  is_numeric_dtype (if isna_any m then fillna m (replace_dict alt_map m) else m)
  = true.
Proof.
  cbv zeta. rewrite second_pass_fills_nothing.
  assert (H : is_numeric_dtype (map_dict mapping d) = true)
    by (unfold map_dict; now destruct (mapM id _)).
  now destruct (isna_any _).
Qed.


End LabelFacts.

(** C1. Labels in the second encoding make [preprocess] raise: the first
    pass has replaced them by NaN before the second pass looks for them,
    and the cast to integer refuses NaN.  The caller's frame is left with
    the NaN column. *)
Theorem spanish_labels_raise :
  forall P : Pandas,
    run_preprocess Examples.spanish_labels
    = ([ ("diagnosis", SFloat [nan; nan]); ("radius_mean", SInt [17; 20]%Z) ],
       Raise IntCastingNaNError).
Proof. intros P. reflexivity. Qed.

(* ===================================================================== *)
(** * Identifier removal                                                   *)
(* ===================================================================== *)

Section IdentifierFacts.
Context {P : Pandas}.

Lemma has_column_filter_labels (t : DataFrame) labels c :
  Str.mem c labels = true ->
  has_column (List.filter (fun col => negb (Str.mem (fst col) labels)) t) c = false.
Proof.
  intros Hc. apply not_true_iff_false. intros H.
  apply has_column_getitem in H as [s Hs].
  rewrite (getitem_filter_label (fun n => negb (Str.mem n labels))) in Hs.
  rewrite Hc in Hs. discriminate.
Qed.

Lemma has_column_clean t out c :
  clean t = Ok out ->
  exists t2, drop_identifier (fst (encode_label t)) = Ok t2 /\
             has_column out c = has_column t2 c.
Proof.
  unfold clean. destruct (encode_label t) as [t1 [[]|e]]; [|discriminate].
  simpl. destruct (drop_identifier t1) as [t2|e]; [|discriminate].
  simpl. intros [= <-]. exists t2. split; [reflexivity|].
  unfold has_column. now rewrite columns_coerce_features, columns_replace_sentinels.
Qed.

(** What identifier removal does drop: the Clean Table has no column [id],
    and, when the first column is not [id], none labelled [unnamed: 0] with
    a space. *)
Lemma clean_has_no_id t out :
  clean t = Ok out ->
  has_column out "id" = false /\
  (hd_error (columns t) <> Some "id" -> has_column out "unnamed: 0" = false).
Proof.
  intros Hclean.
  assert (Hgen : forall c, Str.mem c ["id"; "unnamed: 0"] = true ->
            (c = "id" \/ hd_error (columns t) <> Some "id") ->
            has_column out c = false).
  { intros c Hc Hcase.
    destruct (has_column_clean t out c Hclean) as (t2 & Hdrop & ->).
    pose proof (columns_encode_label t) as Hcols.
    set (t1 := fst (encode_label t)) in *.
    unfold drop_identifier in Hdrop. rewrite Hcols in Hdrop.
    destruct (columns t) as [|c0 cs] eqn:Ht; [discriminate|].
    destruct (String.eqb_spec c0 "id") as [->|Hne].
    - apply drop_Ok in Hdrop. subst t2.
      destruct Hcase as [-> | Hcase]; [|simpl in Hcase; congruence].
      now apply has_column_filter_labels.
    - rewrite <- Hcols in Hdrop.
      destruct (List.filter _ (columns t1)) as [|l ls] eqn:Hf.
      + injection Hdrop as <-. apply not_true_iff_false. intros Hin.
        assert (In c (List.filter (fun c => Str.mem c ["id"; "unnamed: 0"]) (columns t1))).
        { apply filter_In. split; [now apply mem_In | exact Hc]. }
        rewrite Hf in H. destruct H.
      + apply drop_Ok in Hdrop. subst t2. rewrite <- Hf.
        apply not_true_iff_false. intros Hin.
        apply has_column_getitem in Hin as [s Hs].
        rewrite (getitem_filter_label (fun n => negb (Str.mem n _))) in Hs.
        destruct (Str.mem c (List.filter _ (columns t1))) eqn:Hm; [discriminate|].
        simpl in Hs. apply getitem_has_column in Hs.
        apply not_true_iff_false in Hm. apply Hm, mem_In, filter_In.
        split; [now apply mem_In | exact Hc]. }
  split; [apply Hgen; auto | intros H; apply Hgen; auto].
Qed.

End IdentifierFacts.

(** C3. A column the loader has normalized to [unnamed:_0] is kept: the
    loader turns the header [Unnamed: 0] into [unnamed:_0], and
    [preprocess] looks for [unnamed: 0], with the space. *)
Theorem unnamed_index_column_survives :
  forall P : Pandas,
    normalize_name "Unnamed: 0" = "unnamed:_0" /\
    normalize_and_preprocess Examples.unnamed_index
    = Ok [ ("diagnosis", SInt [1; 0]%Z);
           ("unnamed:_0", SInt [0; 1]%Z);
           ("radius_mean", SInt [17; 20]%Z) ].
Proof. intros P. split; reflexivity. Qed.

(* ===================================================================== *)
(** * Missing values and numeric coercion                                 *)
(* ===================================================================== *)

(** C6. In the Clean Table every feature cell that held one of the four
    sentinels [?], [NA], [null], [None], as text, is absent; the sentinel
    step itself puts the absent marker in every such cell, of whatever
    column, and leaves every cell that holds none of the four as it was. *)
Theorem sentinels_become_absent :
  forall (P : Pandas) (t out : DataFrame),
    unique_labels t ->
    snd (run_preprocess t) = Ok out ->
    (forall c i x,
        c <> "diagnosis" -> has_column out c = true ->
        cell t c i = Some (VStr x) ->
        x = "?" \/ x = "NA" \/ x = "null" \/ x = "None" ->
        exists v, cell out c i = Some v /\ isna v = true)
    /\
    (forall u c i x,
        cell u c i = Some (VStr x) ->
        x = "?" \/ x = "NA" \/ x = "null" \/ x = "None" ->
        cell (replace_sentinels u) c i = Some VNA)
    /\
    (forall u c i v,
        cell u c i = Some v ->
        v <> VStr "?" -> v <> VStr "NA" -> v <> VStr "null" -> v <> VStr "None" ->
        cell (replace_sentinels u) c i = Some v).
Proof.
  intros P t out Hnd Hrun.
  rewrite (run_preprocess_clean t Hnd) in Hrun. simpl in Hrun.
  assert (Hkey : forall x, x = "?" \/ x = "NA" \/ x = "null" \/ x = "None" ->
                           replace_sentinel (VStr x) = VNA).
  { intros x [-> | [-> | [-> | ->]]]; reflexivity. }
  split; [|split].
  - intros c i x Hc Hhas Hcell Hx.
    destruct (has_column_getitem _ _ Hhas) as [s' Hs'].
    destruct (clean_feature_column _ _ _ _ Hrun Hc Hs') as (s & Hs & ->).
    unfold cell in *. rewrite Hs in Hcell. rewrite Hs'.
    destruct s as [l|l|l|l]; simpl in Hcell;
      try (rewrite list_lookup_fmap in Hcell; destruct (l !! i); discriminate).
    assert (Hi : map replace_sentinel l !! i = Some VNA).
    { change (map replace_sentinel l) with (replace_sentinel <$> l).
      rewrite list_lookup_fmap, Hcell.
      change (Some (replace_sentinel (VStr x)) = Some VNA). f_equal.
      now apply Hkey. }
    destruct (to_numeric_cell _ _ _ Hi) as [H | [[H _] | [H _]]];
      simpl in H; try discriminate.
    exists (VFloat nan). split; [exact H | reflexivity].
  - intros u c i x Hcell Hx. unfold cell in *.
    rewrite getitem_replace_sentinels.
    destruct (getitem u c) as [s|e]; [|discriminate].
    destruct s as [l|l|l|l]; simpl in Hcell;
      try (rewrite list_lookup_fmap in Hcell; destruct (l !! i); discriminate).
    simpl. change (map replace_sentinel l) with (replace_sentinel <$> l).
    rewrite list_lookup_fmap, Hcell.
    change (Some (replace_sentinel (VStr x)) = Some VNA). f_equal.
    now apply Hkey.
  - intros u c i v Hcell H1 H2 H3 H4. unfold cell in *.
    rewrite getitem_replace_sentinels.
    destruct (getitem u c) as [s|e]; [|discriminate].
    destruct s as [l|l|l|l]; simpl in *; try exact Hcell.
    change (map replace_sentinel l) with (replace_sentinel <$> l).
    rewrite list_lookup_fmap, Hcell.
    change (Some (replace_sentinel v) = Some v). f_equal.
    destruct v as [| | |x|]; try reflexivity.
    unfold replace_sentinel.
    destruct (Str.mem x SENTINELS) eqn:Hm; [|reflexivity].
    apply mem_In in Hm. simpl in Hm.
    destruct Hm as [<- | [<- | [<- | [<- | []]]]]; congruence.
Qed.

(** The four sentinels in one feature column, read with a parser that takes
    every text for a number: the four cells are absent all the same, and the
    cell [none], which is no sentinel, is not. *)
Lemma sentinels_become_absent_witness :
  unique_labels Examples.mixed_cells /\
  (forall i x,
      In (i, x) [(0, "?"); (1, "NA"); (2, "null"); (3, "None")]%nat ->
      (exists v,
          cell [ ("diagnosis", SInt [1; 0; 0; 1]%Z);
                 ("radius_mean", SFloat [nan; nan; nan; nan]);
                 ("texture_mean", SInt [0; 0; 0; 0]%Z);
                 ("perimeter_mean", SFloat [float_of_Z 12; float_of_Z 3; float_of_Z 1; nan]);
                 ("area_mean", SInt [0; 20; 1; 0]%Z);
                 ("smoothness_mean", SBool [true; false; false; true]) ]
               "radius_mean" i = Some v /\ isna v = true) /\
      cell (replace_sentinels Examples.mixed_cells) "radius_mean" i = Some VNA) /\
  cell (replace_sentinels Examples.mixed_cells) "texture_mean" 1 = Some (VStr "none").
Proof.
  assert (Hnd : unique_labels Examples.mixed_cells)
    by (apply (bool_decide_unpack _); vm_compute; exact I).
  split; [exact Hnd|].
  destruct (sentinels_become_absent Lenient.pandas Examples.mixed_cells
              [ ("diagnosis", SInt [1; 0; 0; 1]%Z);
                ("radius_mean", SFloat [nan; nan; nan; nan]);
                ("texture_mean", SInt [0; 0; 0; 0]%Z);
                ("perimeter_mean", SFloat [float_of_Z 12; float_of_Z 3; float_of_Z 1; nan]);
                ("area_mean", SInt [0; 20; 1; 0]%Z);
                ("smoothness_mean", SBool [true; false; false; true]) ]
              Hnd eq_refl)
    as (Habsent & Hstep & Hkept).
  split.
  - intros i x Hin. simpl in Hin.
    destruct Hin as [[= <- <-] | [[= <- <-] | [[= <- <-] | [[= <- <-] | []]]]];
      (split;
       [ eapply Habsent; [discriminate | reflexivity | reflexivity | tauto]
       | eapply Hstep; [reflexivity | tauto] ]).
  - apply (Hkept Examples.mixed_cells "texture_mean" 1%nat (VStr "none"));
      [reflexivity | discriminate ..].
Defined.



(* ===================================================================== *)
(** * What [preprocess] leaves in the store                                *)
(* ===================================================================== *)

(** C8, as the code has it.  After [preprocess] has run, whether it
    returned or raised, the caller's frame has the columns it had, in the
    same order, and every column but [diagnosis] holds the cells it held;
    the [diagnosis] column has been overwritten in place by the label
    stage.  No other frame of the store is touched, and the frame returned
    is a new object. *)
Theorem preprocess_writes_only_the_label :
  forall (P : Pandas) (h h' : store) (r : ref) (t : DataFrame) (res : result ref),
    h !! r = Some t ->
    unique_labels t ->
    preprocess r h = (h', res) ->
    (exists t',
        h' !! r = Some t' /\
        t' = fst (encode_label t) /\
        columns t' = columns t /\
        forall c, c <> "diagnosis" -> getitem t' c = getitem t c) /\
    (forall q, q <> r -> (q < length h)%nat -> h' !! q = h !! q) /\
    (forall r', res = Ok r' -> (length h <= r')%nat).
Proof.
  intros P h h' r t res Hr Hnd Hrun.
  pose proof (preprocess_spec h r t Hr Hnd) as Hspec. cbv zeta in Hspec.
  set (t1 := fst (encode_label t)) in *.
  assert (Hlt : (r < length h)%nat) by (eapply lookup_lt_Some, Hr).
  assert (Hstore : exists extra,
             h' = <[r := t1]> h ++ extra /\
             forall r', res = Ok r' -> (length h <= r')%nat).
  { destruct (snd (encode_label t) ≫= _) as [t2|e].
    - destruct Hspec as [g Hspec]. rewrite Hspec in Hrun.
      injection Hrun as <- <-. eexists. split; [reflexivity|].
      intros r' [= <-]. lia.
    - rewrite Hspec in Hrun. injection Hrun as <- <-.
      exists []. split; [now rewrite app_nil_r | discriminate]. }
  destruct Hstore as (extra & -> & Hfresh).
  split; [|split].
  - exists t1. split; [|split; [reflexivity|split]].
    + rewrite lookup_app_l by (rewrite length_insert; exact Hlt).
      eapply lookup_insert_same, Hr.
    + apply columns_encode_label.
    + intros c Hc. now apply getitem_encode_label_ne.
  - intros q Hq Hqlt.
    rewrite lookup_app_l by (rewrite length_insert; exact Hqlt).
    apply list_lookup_insert_ne. congruence.
  - exact Hfresh.
Qed.

Lemma preprocess_writes_only_the_label_witness :
  [Examples.text_labels] !! 0%nat = Some Examples.text_labels /\
  unique_labels Examples.text_labels /\
  exists t',
    fst (@preprocess Plain.pandas 0%nat [Examples.text_labels]) !! 0%nat = Some t' /\
    forall c, c <> "diagnosis" -> getitem t' c = getitem Examples.text_labels c.
Proof.
  assert (Hnd : unique_labels Examples.text_labels)
    by (apply (bool_decide_unpack _); vm_compute; exact I).
  split; [reflexivity|]. split; [exact Hnd|].
  destruct (preprocess_writes_only_the_label Plain.pandas
              [Examples.text_labels] _ 0%nat Examples.text_labels _
              eq_refl Hnd eq_refl)
    as [(t' & Ht' & _ & _ & Hother) _].
  exists t'. split; [exact Ht' | exact Hother].
Defined.

(** C8 as stated fails: whatever the parsers, after the call the caller's
    frame holds the encoded labels [1; 0] where it held the text ["M"; "B"],
    so it is not the frame it was. *)
Lemma preprocess_overwrites_the_label :
  ~ exists P : Pandas,
      fst (@run_preprocess P Examples.text_labels) = Examples.text_labels.
Proof.
  intros [P H].
  assert (E : fst (@run_preprocess P Examples.text_labels)
              = [ ("id", SInt [842302; 842517]%Z);
                  ("diagnosis", SInt [1; 0]%Z);
                  ("radius_mean", SObject [VStr "17"; VStr "?"]);
                  ("texture_mean", SObject [VStr "error"; VStr "10"]) ])
    by reflexivity.
  rewrite E in H. discriminate H.
Qed.

(* ===================================================================== *)
(** * Running the pipeline on a clean table                                *)
(* ===================================================================== *)

Section CleanFacts.
Context {P : Pandas}.

Lemma replace_sentinels_numeric (t : DataFrame) :
  forallb (fun c => is_numeric_dtype (snd c)) t = true ->
  replace_sentinels t = t.
Proof.
  unfold replace_sentinels. induction t as [|[n s] t IH]; simpl; [reflexivity|].
  intros [Hs Ht]%andb_true_iff. rewrite (IH Ht). now destruct s.
Qed.

Lemma coerce_features_numeric (t : DataFrame) :
  forallb (fun c => String.eqb (fst c) "diagnosis" || is_numeric_dtype (snd c)) t = true ->
  coerce_features t = t.
Proof.
  unfold coerce_features. induction t as [|[n s] t IH]; simpl; [reflexivity|].
  intros [Hs Ht]%andb_true_iff. rewrite (IH Ht).
  destruct (String.eqb n "diagnosis"); [reflexivity|].
  simpl in Hs. now destruct s.
Qed.

Lemma not_normalized_unnamed : normalize_name "unnamed: 0" <> "unnamed: 0".
Proof. discriminate. Qed.

Lemma getitem_In (t : DataFrame) n s :
  NoDup (columns t) -> In (n, s) t -> getitem t n = Ok s.
Proof.
  induction t as [|[m x] t IH]; simpl; [tauto|].
  intros [Hm Ht]%NoDup_cons [[= -> ->]|Hin].
  - now rewrite String.eqb_refl.
  - destruct (String.eqb_spec m n) as [->|_]; [|auto].
    exfalso. apply Hm, list_elem_of_In. unfold columns.
    change n with (fst (n, s)). now apply in_map.
Qed.

Lemma filter_nil_iff {A} (f : A -> bool) l :
  (forall x, In x l -> f x = false) -> List.filter f l = [].
Proof.
  induction l as [|a l IH]; simpl; [reflexivity|]. intros H.
  rewrite (H a) by now left. apply IH. intros x Hx. apply H. now right.
Qed.

(** On an already-clean table with normalized, unique labels [preprocess]
    changes nothing. *)
Lemma clean_already_clean t :
  unique_labels t -> normalized_labels t -> already_clean t = true ->
  clean t = Ok t.
Proof.
  intros Hnd Hnorm Hclean. unfold already_clean in Hclean.
  apply andb_true_iff in Hclean as [Hclean Hfeat].
  apply andb_true_iff in Hclean as [Hlabel Hid].
  destruct (getitem t "diagnosis") as [d|] eqn:Hd; [|discriminate].
  destruct d as [l| | |]; try discriminate.
  assert (Hnum : forallb (fun c => is_numeric_dtype (snd c)) t = true).
  { apply forallb_forall. intros [n s] Hin.
    rewrite forallb_forall in Hfeat. specialize (Hfeat _ Hin). simpl in *.
    destruct (String.eqb_spec n "diagnosis") as [->|]; [|exact Hfeat].
    rewrite (getitem_In t _ _ Hnd Hin) in Hd. now injection Hd as ->. }
  unfold clean, encode_label. rewrite Hd. simpl.
  rewrite (setitem_getitem _ _ _ Hd).
  assert (Hdrop : drop_identifier t = Ok t).
  { unfold drop_identifier.
    destruct (columns t) as [|c0 cs] eqn:Hc.
    { apply getitem_has_column in Hd. unfold has_column in Hd.
      rewrite Hc in Hd. discriminate. }
    rewrite <- Hc.
    assert (Hc0 : String.eqb c0 "id" = false).
    { apply not_true_iff_false. intros ->%String.eqb_eq.
      unfold has_column in Hid. rewrite Hc in Hid. discriminate. }
    rewrite Hc0. rewrite filter_nil_iff; [reflexivity|].
    intros c Hin. apply not_true_iff_false. intros Hm.
    apply mem_In in Hm. destruct Hm as [<- | [<- | []]].
    - apply mem_In in Hin. unfold has_column in Hid. rewrite Hin in Hid. discriminate.
    - unfold normalized_labels in Hnorm. rewrite Forall_forall in Hnorm.
      apply list_elem_of_In in Hin. apply (not_normalized_unnamed (Hnorm _ Hin)). }
  rewrite Hdrop. simpl.
  now rewrite (replace_sentinels_numeric t Hnum), (coerce_features_numeric t Hfeat).
Qed.

End CleanFacts.

(** C9, as the code has it.  On an already-clean table whose labels are
    normalized and unique, and whose first column does not pass the
    identifier test, normalization followed by preprocessing succeeds and
    returns the table itself, hence the same column set. *)
Theorem clean_table_is_a_fixed_point :
  forall (P : Pandas) (t : DataFrame),
    unique_labels t ->
    normalized_labels t ->
    already_clean t = true ->
    first_column_passes_id_test t = false ->
    exists out,
      normalize_and_preprocess t = Ok out /\
      out = t /\
      columns out = columns t.
Proof.
  intros P t Hnd Hnorm Hclean Htest. exists t. split; [|split; reflexivity].
  unfold normalize_and_preprocess.
  assert (Hschema : normalize_schema t = Ok t).
  { unfold normalize_schema, normalize_schema_with.
    rewrite (normalized_labels_map t Hnorm).
    unfold already_clean in Hclean.
    apply andb_true_iff in Hclean as [[Hlabel Hid]%andb_true_iff _].
    destruct (getitem t "diagnosis") as [d|] eqn:Hd; [|discriminate].
    rewrite (getitem_has_column _ _ _ Hd). simpl negb. cbv iota.
    destruct t as [|[c0 s] rest]; [discriminate|]. simpl columns. cbv iota beta.
    destruct (negb (String.eqb c0 "id")); [|reflexivity].
    now rewrite (looks_like_id_fails _ _ _ Htest). }
  rewrite Hschema. simpl.
  rewrite (run_preprocess_clean t Hnd). simpl.
  now apply clean_already_clean.
Qed.

Lemma clean_table_is_a_fixed_point_witness :
  unique_labels Examples.label_first /\
  normalized_labels Examples.label_first /\
  already_clean Examples.label_first = true /\
  first_column_passes_id_test Examples.label_first = false /\
  exists out,
    @normalize_and_preprocess Plain.pandas Examples.label_first = Ok out /\
    out = Examples.label_first /\
    columns out = columns Examples.label_first.
Proof.
  assert (Hnd : unique_labels Examples.label_first)
    by (apply (bool_decide_unpack _); vm_compute; exact I).
  assert (Hnorm : normalized_labels Examples.label_first)
    by (repeat constructor).
  split; [exact Hnd|]. split; [exact Hnorm|].
  split; [reflexivity|]. split; [reflexivity|].
  exact (clean_table_is_a_fixed_point Plain.pandas Examples.label_first
           Hnd Hnorm eq_refl eq_refl).
Defined.

(** C9 as stated fails.  The pipeline turns [with_id] into the clean table
    [with_id_clean]; run again on that table it takes the feature, whose
    two values are distinct, for an identifier and drops it. *)
Lemma second_run_drops_a_feature :
  already_clean Examples.with_id_clean = true /\
  (forall P : Pandas,
      normalize_and_preprocess Examples.with_id = Ok Examples.with_id_clean) /\
  ~ exists (P : Pandas) (out : DataFrame),
      normalize_and_preprocess Examples.with_id_clean = Ok out /\
      columns out = columns Examples.with_id_clean.
Proof.
  split; [reflexivity|]. split; [intros P; reflexivity|].
  intros (P & out & Hrun & Hcols).
  assert (E : normalize_and_preprocess Examples.with_id_clean
              = Ok [("diagnosis", SInt [1; 0]%Z)]) by reflexivity.
  rewrite E in Hrun. injection Hrun as <-. discriminate Hcols.
Qed.

(* ===================================================================== *)
(** * Label normalization                                                  *)
(* ===================================================================== *)

Section NameFacts.

Lemma lower_char_space c : Str.is_space (Str.lower_char c) = Str.is_space c.
Proof. destruct c as [[] [] [] [] [] [] [] []]; reflexivity. Qed.

Lemma lower_char_idem c : Str.lower_char (Str.lower_char c) = Str.lower_char c.
Proof. destruct c as [[] [] [] [] [] [] [] []]; reflexivity. Qed.

Lemma lower_char_not_upper c : Str.is_upper (Str.lower_char c) = false.
Proof. destruct c as [[] [] [] [] [] [] [] []]; reflexivity. Qed.

Lemma lstrip_clean s : Str.lstrip (Str.lstrip s) = Str.lstrip s.
Proof.
  induction s as [|c s IH]; simpl; [reflexivity|].
  destruct (Str.is_space c) eqn:E; [exact IH|]. simpl. now rewrite E.
Qed.

Lemma rstrip_clean s : Str.rstrip (Str.rstrip s) = Str.rstrip s.
Proof.
  induction s as [|c s IH]; simpl; [reflexivity|].
  destruct (Str.rstrip s) as [|d r] eqn:E.
  - destruct (Str.is_space c) eqn:Ec; simpl; [reflexivity | now rewrite Ec].
  - simpl in *. now rewrite IH.
Qed.

(** Stripping the right end does not uncover white space on the left. *)
Lemma lstrip_rstrip s :
  Str.lstrip s = s -> Str.lstrip (Str.rstrip s) = Str.rstrip s.
Proof.
  destruct s as [|c s]; simpl; [reflexivity|].
  destruct (Str.is_space c) eqn:Ec.
  - intros H. exfalso.
    assert (Hlen : forall u, String.length (Str.lstrip u) <= String.length u).
    { clear. induction u as [|a u IH]; simpl; [lia|].
      destruct (Str.is_space a); simpl; lia. }
    specialize (Hlen s). rewrite H in Hlen. simpl in Hlen. lia.
  - intros _. destruct (Str.rstrip s); simpl; now rewrite Ec.
Qed.

Lemma strip_left s : Str.lstrip (Str.strip s) = Str.strip s.
Proof. unfold Str.strip. apply lstrip_rstrip, lstrip_clean. Qed.

Lemma strip_right s : Str.rstrip (Str.strip s) = Str.strip s.
Proof. unfold Str.strip. apply rstrip_clean. Qed.

Lemma lstrip_fixed s :
  Str.lstrip s = s ->
  match s with
  | EmptyString => True
  | String c _ => Str.is_space c = false
  end.
Proof.
  destruct s as [|c s]; simpl; [trivial|].
  destruct (Str.is_space c) eqn:Ec; [|reflexivity].
  intros H. exfalso.
  assert (Hlen : forall u, String.length (Str.lstrip u) <= String.length u).
  { clear. induction u as [|a u IH]; simpl; [lia|].
    destruct (Str.is_space a); simpl; lia. }
  specialize (Hlen s). rewrite H in Hlen. simpl in Hlen. lia.
Qed.

Lemma replace_char_space c :
  Str.is_space c = false ->
  Str.is_space (if Ascii.eqb c " "%char then "_"%char else c) = false.
Proof. destruct c as [[] [] [] [] [] [] [] []]; simpl; auto. Qed.

Lemma lstrip_lower s : Str.lstrip s = s -> Str.lstrip (Str.lower s) = Str.lower s.
Proof.
  intros H%lstrip_fixed. destruct s as [|c s]; simpl; [reflexivity|].
  now rewrite lower_char_space, H.
Qed.

Lemma lstrip_replace_space s :
  Str.lstrip s = s -> Str.lstrip (Str.replace_space s) = Str.replace_space s.
Proof.
  intros H%lstrip_fixed. destruct s as [|c s]; simpl; [reflexivity|].
  now rewrite (replace_char_space c H).
Qed.

Lemma rstrip_lower s : Str.rstrip s = s -> Str.rstrip (Str.lower s) = Str.lower s.
Proof.
  induction s as [|c s IH]; simpl; [reflexivity|].
  destruct (Str.rstrip s) as [|d r] eqn:E.
  - destruct (Str.is_space c) eqn:Ec; [discriminate|].
    intros [= Hs]. subst s. simpl. now rewrite lower_char_space, Ec.
  - intros [= Hs]. rewrite (IH Hs). rewrite <- Hs. simpl. reflexivity.
Qed.

Lemma rstrip_replace_space s :
  Str.rstrip s = s -> Str.rstrip (Str.replace_space s) = Str.replace_space s.
Proof.
  induction s as [|c s IH]; simpl; [reflexivity|].
  destruct (Str.rstrip s) as [|d r] eqn:E.
  - destruct (Str.is_space c) eqn:Ec; [discriminate|].
    intros [= Hs]. subst s. simpl. now rewrite (replace_char_space c Ec).
  - intros [= Hs]. rewrite (IH Hs). rewrite <- Hs. simpl. reflexivity.
Qed.

Lemma lower_replace_fixed s :
  Str.replace_space (Str.lower (Str.replace_space (Str.lower s)))
  = Str.replace_space (Str.lower s).
Proof.
  induction s as [|c s IH]; simpl; [reflexivity|]. rewrite IH. f_equal.
  destruct c as [[] [] [] [] [] [] [] []]; reflexivity.
Qed.

End NameFacts.

Section AsciiFacts.

Lemma is_ascii_cons c s :
  is_ascii (String c s) = (nat_of_ascii c <? 128)%nat && is_ascii s.
Proof. reflexivity. Qed.

Lemma is_ascii_lstrip s : is_ascii s = true -> is_ascii (Str.lstrip s) = true.
Proof.
  induction s as [|c s IH]; [reflexivity|]. cbn [Str.lstrip].
  destruct (Str.is_space c); [|exact id].
  rewrite is_ascii_cons. intros [_ H]%andb_true_iff. now apply IH.
Qed.

Lemma is_ascii_rstrip s : is_ascii s = true -> is_ascii (Str.rstrip s) = true.
Proof.
  induction s as [|c s IH]; [reflexivity|]. cbn [Str.rstrip].
  rewrite is_ascii_cons. intros [Hc H]%andb_true_iff. specialize (IH H).
  destruct (Str.rstrip s) as [|d r].
  - destruct (Str.is_space c); [reflexivity|].
    rewrite is_ascii_cons, Hc. reflexivity.
  - rewrite is_ascii_cons, Hc. exact IH.
Qed.

Lemma is_ascii_lower s : is_ascii s = true -> is_ascii (Str.lower s) = true.
Proof.
  induction s as [|c s IH]; [reflexivity|]. cbn [Str.lower].
  rewrite !is_ascii_cons. intros [Hc H]%andb_true_iff. rewrite (IH H), andb_true_r.
  revert Hc. destruct c as [[] [] [] [] [] [] [] []]; intros Hc;
    first [ reflexivity | discriminate Hc ].
Qed.

Lemma is_ascii_replace_space s :
  is_ascii s = true -> is_ascii (Str.replace_space s) = true.
Proof.
  induction s as [|c s IH]; [reflexivity|]. cbn [Str.replace_space].
  rewrite !is_ascii_cons. intros [Hc H]%andb_true_iff. rewrite (IH H), andb_true_r.
  destruct (Ascii.eqb c " "); [reflexivity | exact Hc].
Qed.

Lemma is_ascii_normalize_name c :
  is_ascii c = true -> is_ascii (normalize_name c) = true.
Proof.
  intros H. unfold normalize_name, Str.strip.
  now apply is_ascii_replace_space, is_ascii_lower, is_ascii_rstrip, is_ascii_lstrip.
Qed.

End AsciiFacts.

(** X1. Normalizing an ASCII column label twice is normalizing it once: what
    line 85 produces is ASCII again, and line 85 leaves it as it is. *)
Theorem normalize_name_idempotent :
  forall c : string,
    is_ascii c = true ->
    is_ascii (normalize_name c) = true /\
    normalize_name (normalize_name c) = normalize_name c.
Proof.
  intros c Hc. split; [now apply is_ascii_normalize_name|].
  unfold normalize_name at 1.
  assert (Hstrip : Str.strip (normalize_name c) = normalize_name c).
  { unfold normalize_name, Str.strip at 1.
    rewrite lstrip_replace_space by apply lstrip_lower, strip_left.
    apply rstrip_replace_space, rstrip_lower, strip_right. }
  rewrite Hstrip. apply lower_replace_fixed.
Qed.

Lemma normalize_name_idempotent_witness :
  normalize_name "  Concave Points Mean " = "concave_points_mean" /\
  normalize_name "concave_points_mean" = "concave_points_mean".
Proof.
  split; [reflexivity|].
  apply (normalize_name_idempotent "  Concave Points Mean " eq_refl).
Defined.

(** X2. The normalized form of an ASCII label holds no space and no
    upper-case letter, and neither begins nor ends with white space. *)
Theorem normalize_name_shape :
  forall c : string,
    is_ascii c = true ->
    let n := normalize_name c in
    Forall (fun ch => ch <> " "%char /\ Str.is_upper ch = false)
           (list_ascii_of_string n)
    /\ Str.strip n = n.
Proof.
  intros c _ n. split.
  - subst n. unfold normalize_name. generalize (Str.strip c). intros s.
    induction s as [|a s IH]; simpl; constructor; [|exact IH].
    destruct a as [[] [] [] [] [] [] [] []]; split; (discriminate || reflexivity).
  - subst n. unfold normalize_name, Str.strip at 1.
    rewrite lstrip_replace_space by apply lstrip_lower, strip_left.
    apply rstrip_replace_space, rstrip_lower, strip_right.
Qed.

Lemma normalize_name_shape_witness :
  Forall (fun ch => ch <> " "%char /\ Str.is_upper ch = false)
         (list_ascii_of_string "concave_points_mean")
  /\ Str.strip "concave_points_mean" = "concave_points_mean".
Proof.
  apply (normalize_name_shape "  Concave Points Mean " eq_refl).
Defined.

(* ===================================================================== *)
(** * The member the locator returns                                       *)
(* ===================================================================== *)

Section MemberFacts.

Lemma endswith_cons c s suf :
  Str.endswith (String c s) suf
  = if String.eqb (String c s) suf then true else Str.endswith s suf.
Proof. reflexivity. Qed.

Lemma first_with_suffix_In suf files nm :
  first_with_suffix suf files = Some nm ->
  In nm files /\ Str.endswith (Str.lower nm) suf = true.
Proof.
  induction files as [|x rest IH]; simpl; [discriminate|].
  destruct (Str.endswith (Str.lower x) suf) eqn:E.
  - intros [= <-]. auto.
  - intros H. destruct (IH H). auto.
Qed.

Lemma data_is_not_csv s :
  Str.endswith s ".data" = true -> Str.endswith s ".csv" = false.
Proof.
  induction s as [|c s IH]; [discriminate|].
  rewrite !endswith_cons.
  destruct (String.eqb_spec (String c s) ".data") as [[= -> ->]|_]; [reflexivity|].
  intros H. rewrite (IH H).
  destruct (String.eqb_spec (String c s) ".csv") as [[= -> ->]|_]; [|reflexivity].
  discriminate H.
Qed.

Lemma wdbc_data_is_data s :
  Str.endswith s "wdbc.data" = true -> Str.endswith s ".data" = true.
Proof.
  induction s as [|c s IH]; [discriminate|].
  rewrite !endswith_cons.
  destruct (String.eqb_spec (String c s) "wdbc.data") as [[= -> ->]|_];
    [reflexivity|].
  intros H. rewrite (IH H). now destruct (String.eqb _ _).
Qed.

End MemberFacts.

(** X3. The member the locator returns is a name of the archive's listing
    and is no directory entry: its name does not end in a slash. *)
Theorem located_member_is_listed :
  forall (C : Type) (z : ZipFile C) (member : string) (has_header : bool),
    find_data_member z = Ok (member, has_header) ->
    In member (namelist z) /\
    Str.endswith member "/" = false /\
    forall stem : string, member <> (stem ++ "/")%string.
Proof.
  intros C z member has_header Hfind.
  assert (Hin : In member
                  (List.filter (fun n => negb (Str.endswith n "/")) (namelist z))).
  { unfold find_data_member in Hfind.
    destruct (first_with_suffix "wdbc.data" _) eqn:E1;
      [injection Hfind as <- _; now apply first_with_suffix_In in E1|].
    destruct (first_with_suffix ".csv" _) eqn:E2;
      [injection Hfind as <- _; now apply first_with_suffix_In in E2|].
    destruct (first_with_suffix ".data" _) eqn:E3;
      [injection Hfind as <- _; now apply first_with_suffix_In in E3|].
    discriminate. }
  apply filter_In in Hin as [Hin Hdir]. apply negb_true_iff in Hdir.
  split; [exact Hin|]. split; [exact Hdir|].
  intros stem ->.
  assert (H : Str.endswith (stem ++ "/") "/" = true)
    by (apply endswith_app; now exists stem).
  congruence.
Qed.

Lemma located_member_is_listed_witness :
  find_data_member Examples.csv_archive = Ok ("export/data.csv", true) /\
  In "export/data.csv" (namelist Examples.csv_archive).
Proof.
  split; [reflexivity|].
  apply (located_member_is_listed Content Examples.csv_archive "export/data.csv" true
           eq_refl).
Defined.

(** X4. The header flag is decided by the extension of the member chosen:
    it is true exactly when the name ends, case-insensitively, in [.csv]. *)
Theorem header_flag_is_csv_extension :
  forall (C : Type) (z : ZipFile C) (member : string) (has_header : bool),
    find_data_member z = Ok (member, has_header) ->
    has_header = Str.endswith (Str.lower member) ".csv".
Proof.
  intros C z member has_header Hfind. unfold find_data_member in Hfind.
  destruct (first_with_suffix "wdbc.data" _) eqn:E1.
  { injection Hfind as <- <-. apply first_with_suffix_In in E1 as [_ E1].
    symmetry. now apply data_is_not_csv, wdbc_data_is_data. }
  destruct (first_with_suffix ".csv" _) eqn:E2.
  { injection Hfind as <- <-. now apply first_with_suffix_In in E2 as [_ ->]. }
  destruct (first_with_suffix ".data" _) eqn:E3; [|discriminate].
  injection Hfind as <- <-. apply first_with_suffix_In in E3 as [_ E3].
  symmetry. now apply data_is_not_csv.
Qed.

Lemma header_flag_is_csv_extension_witness :
  true = Str.endswith (Str.lower "export/data.csv") ".csv".
Proof.
  apply (header_flag_is_csv_extension Content Examples.csv_archive
           "export/data.csv" true eq_refl).
Defined.

(* ===================================================================== *)
(** * More on the schema normalizer                                        *)
(* ===================================================================== *)

Section SchemaFacts.

Lemma getitem_missing (t : DataFrame) c :
  ~ In c (columns t) -> getitem t c = Raise (KeyError c).
Proof.
  induction t as [|[n s] t IH]; simpl; [reflexivity|].
  intros H. destruct (String.eqb_spec n c); [tauto|]. apply IH. tauto.
Qed.

Lemma nunique_le_len s : nunique s <= len s.
Proof.
  assert (Hcount : forall A (eqb : A -> A -> bool) (l : list A),
             count_distinct eqb l <= length l).
  { intros A eqb l. induction l as [|x l IH]; simpl; [lia|].
    destruct (existsb (eqb x) l); lia. }
  assert (Hfilter : forall A (f : A -> bool) (l : list A),
             length (List.filter f l) <= length l).
  { intros A f l. induction l as [|x l IH]; simpl; [lia|].
    destruct (f x); simpl; lia. }
  unfold len. destruct s as [l|l|l|l]; simpl; rewrite ?length_map.
  - apply Hcount.
  - etransitivity; [apply Hcount | apply Hfilter].
  - apply Hcount.
  - etransitivity; [apply Hcount | apply Hfilter].
Qed.

Lemma Forall2_normalized (df : DataFrame) :
  Forall2 (fun cin cout : string * Series =>
             snd cout = snd cin /\
             (fst cout = normalize_name (fst cin) \/ fst cout = "id"))
          df (map (fun c => (normalize_name (fst c), snd c)) df).
Proof. induction df as [|c df IH]; simpl; constructor; auto. Qed.

Lemma Forall2_renamed (df : DataFrame) old :
  Forall2 (fun cin cout : string * Series =>
             snd cout = snd cin /\
             (fst cout = normalize_name (fst cin) \/ fst cout = "id"))
          df (rename (map (fun c => (normalize_name (fst c), snd c)) df) old "id").
Proof.
  unfold rename. induction df as [|c df IH]; simpl; constructor; [|exact IH].
  destruct (String.eqb _ old); simpl; auto.
Qed.

(** What the normalizer returns: the table with normalized labels, its
    first column relabelled or not. *)
Lemma normalize_schema_cases (df : DataFrame) :
  let df' := map (fun c => (normalize_name (fst c), snd c)) df in
  if has_column df' "diagnosis" then
    normalize_schema df = Ok df' \/
    exists c0, hd_error (columns df') = Some c0 /\ c0 <> "id" /\
               first_column_passes_id_test df' = true /\
               normalize_schema df = Ok (rename df' c0 "id")
  else normalize_schema df = Raise ValueError.
Proof.
  intros df'. unfold normalize_schema, normalize_schema_with. fold df'.
  destruct (has_column df' "diagnosis") eqn:Hdiag; [|reflexivity].
  simpl negb. cbv iota.
  destruct df' as [|[c0 s] rest] eqn:Hdf; [discriminate|].
  simpl columns. cbv iota beta.
  destruct (String.eqb_spec c0 "id") as [->|Hne]; simpl negb; cbv iota; [now left|].
  rewrite looks_like_id_first.
  destruct (negb (Str.mem c0 (columns rest))
            && first_column_passes_id_test ((c0, s) :: rest)) eqn:Htest; [|now left].
  apply andb_true_iff in Htest as [_ Htest].
  right. exists c0. auto.
Qed.

End SchemaFacts.

(** X5. On a table whose labels are ASCII text, normalization fails in one
    way only: with a [ValueError], when no label normalizes to [diagnosis].
    The identifier test never makes it fail. *)
Theorem normalize_schema_fails_iff :
  forall (df : DataFrame) (e : exn),
    Forall (fun c => is_ascii c = true) (columns df) ->
    (normalize_schema df = Raise e <->
     ~ In "diagnosis" (map normalize_name (columns df)) /\ e = ValueError).
Proof.
  intros df e _. pose proof (normalize_schema_cases df) as H. cbv zeta in H.
  assert (Hcols : columns (map (fun c => (normalize_name (fst c), snd c)) df)
                  = map normalize_name (columns df)).
  { unfold columns. rewrite !map_map. reflexivity. }
  unfold has_column in H. rewrite Hcols in H.
  destruct (Str.mem "diagnosis" (map normalize_name (columns df))) eqn:Hm.
  - apply mem_In in Hm. split; [|intros [Hno _]; tauto].
    destruct H as [-> | (c0 & _ & _ & _ & ->)]; discriminate.
  - assert (Hno : ~ In "diagnosis" (map normalize_name (columns df))).
    { intros Hin%mem_In. congruence. }
    rewrite H. split; [intros [= <-]; auto | now intros [_ ->]].
Qed.

Lemma normalize_schema_fails_iff_witness :
  normalize_schema [(" Sample", SInt [842302; 842517]%Z);
                    ("Class", SObject [VStr "M"; VStr "B"])]
  = Raise ValueError
  /\ ~ In "diagnosis" (map normalize_name [" Sample"; "Class"]).
Proof.
  assert (Hascii : Forall (fun c => is_ascii c = true) [" Sample"; "Class"])
    by (repeat constructor).
  split; [reflexivity|].
  apply (proj1 (normalize_schema_fails_iff
                  [(" Sample", SInt [842302; 842517]%Z);
                   ("Class", SObject [VStr "M"; VStr "B"])]
                  ValueError Hascii)).
  reflexivity.
Defined.

(** X6. Normalization only relabels: the table returned has the columns of
    the table read, in the same order and with the same cells, each under
    its normalized label or under [id]. *)
Theorem normalize_schema_keeps_the_data :
  forall (df out : DataFrame),
    normalize_schema df = Ok out ->
    Forall2 (fun cin cout : string * Series =>
               snd cout = snd cin /\
               (fst cout = normalize_name (fst cin) \/ fst cout = "id"))
            df out.
Proof.
  intros df out Hrun. pose proof (normalize_schema_cases df) as H. cbv zeta in H.
  destruct (has_column _ "diagnosis"); [|congruence].
  destruct H as [H | (c0 & _ & _ & _ & H)]; rewrite H in Hrun; injection Hrun as <-.
  - apply Forall2_normalized.
  - apply Forall2_renamed.
Qed.

Lemma normalize_schema_keeps_the_data_witness :
  Forall2 (fun cin cout : string * Series =>
             snd cout = snd cin /\
             (fst cout = normalize_name (fst cin) \/ fst cout = "id"))
          [(" Sample", SInt [842302; 842517]%Z);
           ("Diagnosis", SObject [VStr "M"; VStr "B"])]
          [("id", SInt [842302; 842517]%Z);
           ("diagnosis", SObject [VStr "M"; VStr "B"])].
Proof.
  apply (normalize_schema_keeps_the_data
           [(" Sample", SInt [842302; 842517]%Z);
            ("Diagnosis", SObject [VStr "M"; VStr "B"])]
           _ eq_refl).
Defined.

(** X7. A table without rows is never relabelled: with no row no column has
    more distinct values than nine tenths of the row count. *)
Theorem empty_table_is_not_relabelled :
  forall df : DataFrame,
    let df' := map (fun c => (normalize_name (fst c), snd c)) df in
    nrows df = 0 ->
    has_column df' "diagnosis" = true ->
    normalize_schema df = Ok df'.
Proof.
  intros df df' Hrows Hdiag.
  pose proof (normalize_schema_cases df) as H. cbv zeta in H. fold df' in H.
  rewrite Hdiag in H.
  destruct H as [H | (c0 & _ & _ & Htest & _)]; [exact H|]. exfalso.
  assert (Hrows' : nrows df' = 0).
  { subst df'. destruct df as [|[n s] df]; [reflexivity | exact Hrows]. }
  destruct df' as [|[n s] rest]; [discriminate|].
  unfold first_column_passes_id_test in Htest.
  apply andb_true_iff in Htest as [_ Htest]. apply Nat.ltb_lt in Htest.
  pose proof (nunique_le_len s) as Hle. simpl in Hrows'. lia.
Qed.

Lemma empty_table_is_not_relabelled_witness :
  normalize_schema [("Sample", SInt []); ("Diagnosis", SObject [])]
  = Ok [("sample", SInt []); ("diagnosis", SObject [])].
Proof.
  apply (empty_table_is_not_relabelled
           [("Sample", SInt []); ("Diagnosis", SObject [])] eq_refl eq_refl).
Defined.

(* ===================================================================== *)
(** * How [preprocess] fails                                               *)
(* ===================================================================== *)

Section FailureFacts.
Context {P : Pandas}.

(** Without a label column nothing is written. *)
Lemma preprocess_no_label (h : store) r t e :
  h !! r = Some t -> getitem t "diagnosis" = Raise e ->
  preprocess r h = (h, Raise e).
Proof.
  intros Hr Hd. unfold preprocess. apply bind_raise.
  now rewrite (getitem_at_eq _ _ _ _ Hr), Hd.
Qed.


End FailureFacts.

(** X8. When the label is the first column and passes the identifier test
    (a numeric label on one row, or on two rows with both classes), the
    normalizer relabels it [id], and preprocessing then fails for want of a
    [diagnosis] column. *)
Theorem label_taken_for_identifier :
  forall (P : Pandas) (t : DataFrame) (s : Series) (rest : DataFrame),
    let t' := map (fun c => (normalize_name (fst c), snd c)) t in
    t' = ("diagnosis", s) :: rest ->
    unique_labels t' ->
    first_column_passes_id_test t' = true ->
    normalize_schema t = Ok (("id", s) :: rest) /\
    normalize_and_preprocess t = Raise (KeyError "diagnosis").
Proof.
  intros P t s rest t' Ht' Hnd Htest.
  assert (Hfresh : ~ In "diagnosis" (columns rest)).
  { rewrite Ht' in Hnd. unfold unique_labels in Hnd. simpl in Hnd.
    apply NoDup_cons in Hnd as [Hnd _]. now rewrite <- list_elem_of_In. }
  assert (Hschema : normalize_schema t = Ok (("id", s) :: rest)).
  { unfold normalize_schema, normalize_schema_with. fold t'. rewrite Ht' in *.
    change (has_column (("diagnosis", s) :: rest) "diagnosis") with true.
    simpl negb. simpl columns. cbv iota beta.
    change (negb ("diagnosis" =? "id")%string) with true. cbv iota.
    rewrite (looks_like_id_unique _ _ _ Hnd), Htest. now rewrite rename_first. }
  split; [exact Hschema|].
  unfold normalize_and_preprocess. rewrite Hschema. simpl.
  unfold run_preprocess.
  rewrite (preprocess_no_label [("id", s) :: rest] 0 (("id", s) :: rest)
             (KeyError "diagnosis") eq_refl); [reflexivity|].
  simpl. now apply getitem_missing.
Qed.

Lemma label_taken_for_identifier_witness :
  unique_labels [("diagnosis", SInt [1]%Z); ("radius_mean", SInt [17]%Z)] /\
  @normalize_and_preprocess Plain.pandas
    [("Diagnosis", SInt [1]%Z); ("Radius Mean", SInt [17]%Z)]
  = Raise (KeyError "diagnosis").
Proof.
  assert (Hnd : unique_labels [("diagnosis", SInt [1]%Z); ("radius_mean", SInt [17]%Z)])
    by (apply (bool_decide_unpack _); vm_compute; exact I).
  split; [exact Hnd|].
  apply (label_taken_for_identifier Plain.pandas
           [("Diagnosis", SInt [1]%Z); ("Radius Mean", SInt [17]%Z)]
           (SInt [1]%Z) [("radius_mean", SInt [17]%Z)] eq_refl Hnd eq_refl).
Defined.

(** X9. On a table without a [diagnosis] column [preprocess] raises
    [KeyError] at once: no frame of the store is written or created. *)
Theorem preprocess_without_label_column :
  forall (P : Pandas) (h : store) (r : ref) (t : DataFrame),
    h !! r = Some t ->
    has_column t "diagnosis" = false ->
    preprocess r h = (h, Raise (KeyError "diagnosis")).
Proof.
  intros P h r t Hr Hdiag. apply (preprocess_no_label h r t _ Hr).
  apply getitem_missing. intros Hin. apply mem_In in Hin.
  unfold has_column in Hdiag. congruence.
Qed.

Lemma preprocess_without_label_column_witness :
  @preprocess Plain.pandas 0 [[("id", SInt [842302]%Z); ("radius_mean", SInt [17]%Z)]]
  = ([[("id", SInt [842302]%Z); ("radius_mean", SInt [17]%Z)]],
     Raise (KeyError "diagnosis")).
Proof.
  apply (preprocess_without_label_column Plain.pandas
           [[("id", SInt [842302]%Z); ("radius_mean", SInt [17]%Z)]] 0
           [("id", SInt [842302]%Z); ("radius_mean", SInt [17]%Z)]
           eq_refl eq_refl).
Defined.





(* ===================================================================== *)
(** * The label column of the Clean Table                                  *)
(* ===================================================================== *)

Section CleanLabelFacts.
Context {P : Pandas}.

Lemma astype_int_SInt s v : astype_int s = Ok v -> exists l, v = SInt l.
Proof.
  destruct s as [l|l|l|l]; simpl.
  - intros [= <-]. eauto.
  - destruct (forallb is_finite l); [intros [= <-]; eauto | discriminate].
  - intros [= <-]. eauto.
  - destruct (mapM _ l); [intros [= <-]; eauto | discriminate].
Qed.

(** After a label stage that succeeds the label column is int64. *)
Lemma encode_label_SInt t :
  snd (encode_label t) = Ok tt ->
  exists l, getitem (fst (encode_label t)) "diagnosis" = Ok (SInt l).
Proof.
  unfold encode_label. destruct (getitem t "diagnosis") as [d|]; [|discriminate].
  destruct (is_numeric_dtype d).
  - destruct (astype_int d) as [v|] eqn:E; [|discriminate]. intros _.
    destruct (astype_int_SInt _ _ E) as [l ->]. exists l. apply getitem_setitem.
  - cbv zeta. destruct (astype_int _) as [v|] eqn:E; [|discriminate]. intros _.
    destruct (astype_int_SInt _ _ E) as [l ->]. exists l. apply getitem_setitem.
Qed.

Lemma mem_filter (f : string -> bool) cols c :
  Str.mem c (List.filter f cols) = true -> f c = true.
Proof. intros H%mem_In%filter_In. tauto. Qed.

Lemma getitem_drop_identifier_label t t2 :
  drop_identifier t = Ok t2 -> getitem t2 "diagnosis" = getitem t "diagnosis".
Proof.
  unfold drop_identifier. destruct (columns t) as [|c0 cs]; [discriminate|].
  destruct (String.eqb c0 "id").
  - intros H. now rewrite (getitem_drop _ _ _ "diagnosis" H).
  - destruct (List.filter _ (c0 :: cs)) as [|x xs] eqn:Hf; [now intros [= <-]|].
    intros H. rewrite (getitem_drop _ _ _ "diagnosis" H). rewrite <- Hf.
    destruct (Str.mem "diagnosis" _) eqn:Hm; [|reflexivity].
    apply mem_filter in Hm. discriminate.
Qed.

(** The label column of the Clean Table is the one the label stage wrote. *)
Lemma clean_label_column t out :
  clean t = Ok out ->
  exists l, getitem (fst (encode_label t)) "diagnosis" = Ok (SInt l) /\
            getitem out "diagnosis" = Ok (SInt l).
Proof.
  intros Hclean. unfold clean in Hclean.
  pose proof (encode_label_SInt t) as Hlabel.
  destruct (encode_label t) as [t1 [[]|e]]; [|discriminate]. simpl in *.
  destruct (Hlabel eq_refl) as [l Hl]. exists l. split; [exact Hl|].
  destruct (drop_identifier t1) as [t2|] eqn:Hdrop; [|discriminate].
  simpl in Hclean. injection Hclean as <-.
  rewrite getitem_coerce_features, getitem_replace_sentinels.
  now rewrite (getitem_drop_identifier_label _ _ Hdrop), Hl.
Qed.





End CleanLabelFacts.



(** X13. An int64 label column is taken as it is: its values are neither
    remapped nor checked, so labels other than 0 and 1 (the 2 and 4 of the
    original Wisconsin file, say) reach the Clean Table unchanged. *)
Theorem integer_labels_pass_unchanged :
  forall (P : Pandas) (t : DataFrame) (l : list Z),
    unique_labels t ->
    getitem t "diagnosis" = Ok (SInt l) ->
    exists out,
      snd (run_preprocess t) = Ok out /\
      getitem out "diagnosis" = Ok (SInt l).
Proof.
  intros P t l Hnd Hd.
  assert (Hvalid : valid_label t) by (exists (SInt l); auto).
  destruct (valid_label_clean t Hvalid) as [out Hclean].
  exists out. rewrite (run_preprocess_clean t Hnd). split; [exact Hclean|].
  destruct (clean_label_column t out Hclean) as (l' & Hl & ->). f_equal.
  unfold encode_label in Hl. rewrite Hd in Hl. simpl in Hl.
  rewrite getitem_setitem in Hl. now injection Hl as <-.
Qed.

Lemma integer_labels_pass_unchanged_witness :
  exists out,
    snd (@run_preprocess Plain.pandas
           [("diagnosis", SInt [2; 4]%Z); ("radius_mean", SInt [17; 20]%Z)]) = Ok out /\
    getitem out "diagnosis" = Ok (SInt [2; 4]%Z).
Proof.
  apply (integer_labels_pass_unchanged Plain.pandas
           [("diagnosis", SInt [2; 4]%Z); ("radius_mean", SInt [17; 20]%Z)]
           [2; 4]%Z).
  - apply (bool_decide_unpack _); vm_compute; exact I.
  - reflexivity.
Defined.

(* ===================================================================== *)
(** * Shape and types of the Clean Table                                   *)
(* ===================================================================== *)

Section CleanShapeFacts.
Context {P : Pandas}.

Lemma columns_filter_label (g : string -> bool) (t : DataFrame) :
  columns (List.filter (fun col => g (fst col)) t) = List.filter g (columns t).
Proof.
  induction t as [|[n s] t IH]; simpl; [reflexivity|].
  destruct (g n); simpl; now rewrite IH.
Qed.

Lemma filter_negb_all {A} (f : A -> bool) (l : list A) :
  List.filter f l = [] -> List.filter (fun x => negb (f x)) l = l.
Proof.
  induction l as [|x l IH]; simpl; [reflexivity|].
  destruct (f x); [discriminate|]. intros H. simpl. now rewrite IH.
Qed.

Lemma drop_identifier_columns t t2 :
  drop_identifier t = Ok t2 ->
  columns t2
  = List.filter
      (fun c => negb (Str.mem c (if String.eqb (hd "" (columns t)) "id"
                                 then ["id"] else ["id"; "unnamed: 0"])))
      (columns t).
Proof.
  unfold drop_identifier. destruct (columns t) as [|c0 cs] eqn:Hc; [discriminate|].
  rewrite <- Hc. replace (hd "" (columns t)) with c0 by now rewrite Hc.
  destruct (String.eqb c0 "id").
  - intros ->%drop_Ok.
    apply (columns_filter_label (fun n => negb (Str.mem n ["id"]))).
  - destruct (List.filter _ (columns t)) as [|x xs] eqn:Hf.
    + intros [= <-]. symmetry. now apply filter_negb_all.
    + intros ->%drop_Ok. rewrite <- Hf.
      rewrite (columns_filter_label (fun n => negb (Str.mem n _))).
      apply filter_ext_in. intros c Hin. f_equal.
      destruct (Str.mem c ["id"; "unnamed: 0"]) eqn:Hm.
      * apply mem_In, filter_In. auto.
      * apply not_true_iff_false. intros H%mem_filter. congruence.
Qed.

Lemma clean_columns t out :
  clean t = Ok out ->
  columns out
  = List.filter
      (fun c => negb (Str.mem c (if String.eqb (hd "" (columns t)) "id"
                                 then ["id"] else ["id"; "unnamed: 0"])))
      (columns t).
Proof.
  unfold clean. pose proof (columns_encode_label t) as Hcols.
  destruct (encode_label t) as [t1 [[]|e]]; [|discriminate]. simpl in *.
  destruct (drop_identifier t1) as [t2|] eqn:Hdrop; [|discriminate].
  simpl. intros [= <-].
  rewrite columns_coerce_features, columns_replace_sentinels.
  rewrite (drop_identifier_columns _ _ Hdrop). now rewrite Hcols.
Qed.

Lemma NoDup_columns_clean t out :
  clean t = Ok out -> NoDup (columns t) -> NoDup (columns out).
Proof.
  unfold clean. pose proof (columns_encode_label t) as Hcols.
  destruct (encode_label t) as [t1 [[]|e]]; [|discriminate]. simpl in *.
  destruct (drop_identifier t1) as [t2|] eqn:Hdrop; [|discriminate].
  simpl. intros [= <-] Hnd.
  rewrite columns_coerce_features, columns_replace_sentinels.
  apply (NoDup_columns_drop_identifier _ _ Hdrop). now rewrite Hcols.
Qed.

Lemma len_to_numeric s : len (to_numeric s) = len s.
Proof.
  unfold len. destruct s as [l|l|l|l]; try reflexivity. simpl.
  destruct (existsb saw_float _); [|destruct (existsb saw_int _);
    [|destruct (existsb saw_bool _)]]; simpl; now rewrite !length_map.
Qed.

Lemma len_replace_sentinels_series s : len (replace_sentinels_series s) = len s.
Proof. unfold len. destruct s; simpl; now rewrite ?length_map. Qed.

Lemma to_numeric_is_numeric s : is_numeric_dtype (to_numeric s) = true.
Proof.
  destruct s as [l|l|l|l]; try reflexivity. simpl.
  destruct (existsb saw_float _); [|destruct (existsb saw_int _);
    [|destruct (existsb saw_bool _)]]; reflexivity.
Qed.

Lemma len_map_dict d s : len (map_dict d s) = len s.
Proof.
  unfold map_dict, len.
  destruct (mapM id _) as [zs|] eqn:E; simpl; rewrite ?length_map.
  - apply length_mapM in E. rewrite length_map in E. congruence.
  - reflexivity.
Qed.

Lemma len_astype_int s v : astype_int s = Ok v -> len v = len s.
Proof.
  unfold len. destruct s as [l|l|l|l]; simpl.
  - now intros [= <-].
  - destruct (forallb is_finite l); [|discriminate].
    intros [= <-]. simpl. now rewrite !length_map.
  - intros [= <-]. simpl. now rewrite !length_map.
  - destruct (mapM _ l) as [zs|] eqn:E; [|discriminate].
    intros [= <-]. simpl. apply length_mapM in E. now rewrite length_map.
Qed.

(** The label stage keeps the number of labels. *)
Lemma encode_label_len t s1 :
  snd (encode_label t) = Ok tt ->
  getitem (fst (encode_label t)) "diagnosis" = Ok s1 ->
  exists d, getitem t "diagnosis" = Ok d /\ len s1 = len d.
Proof.
  unfold encode_label. destruct (getitem t "diagnosis") as [d|]; [|discriminate].
  destruct (is_numeric_dtype d).
  - destruct (astype_int d) as [v|] eqn:E; [|discriminate]. simpl. intros _.
    rewrite getitem_setitem. intros [= <-]. exists d. split; [reflexivity|].
    now apply len_astype_int.
  - cbv zeta. rewrite second_pass_fills_nothing.
    assert (Hsame : (if isna_any (map_dict mapping d)
                     then map_dict mapping d else map_dict mapping d)
                    = map_dict mapping d) by now destruct (isna_any _).
    rewrite Hsame.
    destruct (astype_int _) as [v|] eqn:E; [|discriminate]. simpl. intros _.
    rewrite getitem_setitem. intros [= <-]. exists d. split; [reflexivity|].
    rewrite (len_astype_int _ _ E). apply len_map_dict.
Qed.

End CleanShapeFacts.

(** X14. The columns of the Clean Table are those of the input, in their
    order, less the identifier columns: when the first column is [id], the
    columns labelled [id]; otherwise those labelled [id] or [unnamed: 0].
    The Clean Table never has a column [id]; a column [unnamed: 0] is kept
    when the first column is [id]. *)
Theorem clean_table_columns :
  forall (P : Pandas) (t out : DataFrame),
    unique_labels t ->
    snd (run_preprocess t) = Ok out ->
    let dropped :=
      if String.eqb (hd "" (columns t)) "id" then ["id"]
      else ["id"; "unnamed: 0"] in
    columns out = List.filter (fun c => negb (Str.mem c dropped)) (columns t)
    /\ has_column out "id" = false.
Proof.
  intros P t out Hnd Hrun dropped.
  rewrite (run_preprocess_clean t Hnd) in Hrun. simpl in Hrun.
  split; [now apply clean_columns | now apply (clean_has_no_id t out)].
Qed.

Lemma clean_table_columns_witness :
  unique_labels [("id", SInt [842302]%Z); ("unnamed: 0", SInt [0]%Z);
                 ("diagnosis", SInt [1]%Z)] /\
  exists out,
    snd (@run_preprocess Plain.pandas
           [("id", SInt [842302]%Z); ("unnamed: 0", SInt [0]%Z);
            ("diagnosis", SInt [1]%Z)]) = Ok out /\
    columns out = ["unnamed: 0"; "diagnosis"].
Proof.
  assert (Hnd : unique_labels [("id", SInt [842302]%Z); ("unnamed: 0", SInt [0]%Z);
                               ("diagnosis", SInt [1]%Z)])
    by (apply (bool_decide_unpack _); vm_compute; exact I).
  split; [exact Hnd|]. eexists. split; [reflexivity|].
  apply (clean_table_columns Plain.pandas _ _ Hnd eq_refl).
Defined.

(** X15. [preprocess] drops no row: every column of the Clean Table is as
    long as the column of the same label was in the input. *)
Theorem preprocess_keeps_every_row :
  forall (P : Pandas) (t out : DataFrame) (c : string) (s' : Series),
    unique_labels t ->
    snd (run_preprocess t) = Ok out ->
    getitem out c = Ok s' ->
    exists s, getitem t c = Ok s /\ len s' = len s.
Proof.
  intros P t out c s' Hnd Hrun Hs'.
  rewrite (run_preprocess_clean t Hnd) in Hrun. simpl in Hrun.
  destruct (String.eqb_spec c "diagnosis") as [->|Hc].
  - destruct (clean_label_column t out Hrun) as (l & Hl & Hout).
    rewrite Hout in Hs'. injection Hs' as <-.
    apply (encode_label_len t (SInt l)); [|exact Hl].
    unfold clean in Hrun. destruct (encode_label t) as [t1 [[]|e]];
      [reflexivity | discriminate].
  - destruct (clean_feature_column t out c s' Hrun Hc Hs') as (s & Hs & ->).
    exists s. split; [exact Hs|].
    now rewrite len_to_numeric, len_replace_sentinels_series.
Qed.

Lemma preprocess_keeps_every_row_witness :
  exists s,
    getitem Examples.text_labels "texture_mean" = Ok s /\
    len (SFloat [nan; float_of_Z 10]) = len s.
Proof.
  apply (preprocess_keeps_every_row Plain.pandas Examples.text_labels
           [ ("diagnosis", SInt [1; 0]%Z);
             ("radius_mean", SFloat [float_of_Z 17; nan]);
             ("texture_mean", SFloat [nan; float_of_Z 10]) ]
           "texture_mean").
  - apply (bool_decide_unpack _); vm_compute; exact I.
  - reflexivity.
  - reflexivity.
Defined.

(** X16. In the Clean Table the label column is int64 and every other
    column has a numeric dtype: no cell of it holds text or [pd.NA]. *)
Theorem clean_table_is_numeric :
  forall (P : Pandas) (t out : DataFrame),
    unique_labels t ->
    snd (run_preprocess t) = Ok out ->
    (exists l, getitem out "diagnosis" = Ok (SInt l)) /\
    (forall c s, getitem out c = Ok s -> is_numeric_dtype s = true).
Proof.
  intros P t out Hnd Hrun.
  rewrite (run_preprocess_clean t Hnd) in Hrun. simpl in Hrun.
  destruct (clean_label_column t out Hrun) as (l & _ & Hout).
  split; [eauto|]. intros c s Hs.
  destruct (String.eqb_spec c "diagnosis") as [->|Hc].
  - rewrite Hout in Hs. now injection Hs as <-.
  - destruct (clean_feature_column t out c s Hrun Hc Hs) as (s0 & _ & ->).
    apply to_numeric_is_numeric.
Qed.

Lemma clean_table_is_numeric_witness :
  unique_labels Examples.text_labels /\
  forall c s,
    getitem [ ("diagnosis", SInt [1; 0]%Z);
              ("radius_mean", SFloat [float_of_Z 17; nan]);
              ("texture_mean", SFloat [nan; float_of_Z 10]) ] c = Ok s ->
    is_numeric_dtype s = true.
Proof.
  assert (Hnd : unique_labels Examples.text_labels)
    by (apply (bool_decide_unpack _); vm_compute; exact I).
  split; [exact Hnd|].
  apply (clean_table_is_numeric Plain.pandas Examples.text_labels _ Hnd eq_refl).
Defined.

Section FixedPointFacts.
Context {P : Pandas}.

(** A table that [preprocess] returns as it is, without writing to it. *)
Lemma clean_fixed t l :
  unique_labels t ->
  getitem t "diagnosis" = Ok (SInt l) ->
  (forall c s, getitem t c = Ok s -> is_numeric_dtype s = true) ->
  has_column t "id" = false ->
  has_column t "unnamed: 0" = false ->
  encode_label t = (t, Ok tt) /\ clean t = Ok t.
Proof.
  intros Hnd Hd Hnum Hid Hun.
  assert (Hlabel : encode_label t = (t, Ok tt)).
  { unfold encode_label. rewrite Hd. simpl. now rewrite (setitem_getitem _ _ _ Hd). }
  split; [exact Hlabel|]. unfold clean. rewrite Hlabel.
  assert (Hall : forallb (fun c => is_numeric_dtype (snd c)) t = true).
  { apply forallb_forall. intros [n s] Hin. simpl.
    apply (Hnum n). now apply getitem_In. }
  assert (Hdrop : drop_identifier t = Ok t).
  { unfold drop_identifier.
    destruct (columns t) as [|c0 cs] eqn:Hc.
    { apply getitem_has_column in Hd. unfold has_column in Hd.
      rewrite Hc in Hd. discriminate. }
    rewrite <- Hc.
    assert (Hc0 : String.eqb c0 "id" = false).
    { apply not_true_iff_false. intros ->%String.eqb_eq.
      unfold has_column in Hid. rewrite Hc in Hid. discriminate. }
    rewrite Hc0. rewrite filter_nil_iff; [reflexivity|].
    intros c Hin. apply not_true_iff_false. intros Hm.
    apply mem_In in Hin. unfold has_column in Hid, Hun.
    apply mem_In in Hm. destruct Hm as [<- | [<- | []]]; congruence. }
  rewrite Hdrop. simpl. rewrite (replace_sentinels_numeric t Hall).
  rewrite coerce_features_numeric; [reflexivity|].
  apply forallb_forall. intros c Hin. rewrite forallb_forall in Hall.
  rewrite (Hall c Hin). apply orb_true_r.
Qed.

End FixedPointFacts.

(** X17. [preprocess] is idempotent on what it returns, provided that has
    no column [unnamed: 0]: run on its own Clean Table it returns that table
    and writes nothing to it.  (A column [unnamed: 0] kept behind a leading
    [id] would go in the second run.) *)
Theorem preprocess_is_idempotent :
  forall (P : Pandas) (t out : DataFrame),
    unique_labels t ->
    snd (run_preprocess t) = Ok out ->
    has_column out "unnamed: 0" = false ->
    run_preprocess out = (out, Ok out).
Proof.
  intros P t out Hnd Hrun Hun.
  rewrite (run_preprocess_clean t Hnd) in Hrun. simpl in Hrun.
  pose proof (NoDup_columns_clean t out Hrun Hnd) as Hnd'.
  destruct (clean_label_column t out Hrun) as (l & _ & Hout).
  destruct (clean_has_no_id t out Hrun) as [Hid _].
  assert (Hnum : forall c s, getitem out c = Ok s -> is_numeric_dtype s = true).
  { intros c s Hs. destruct (String.eqb_spec c "diagnosis") as [->|Hc].
    - rewrite Hout in Hs. now injection Hs as <-.
    - destruct (clean_feature_column t out c s Hrun Hc Hs) as (s0 & _ & ->).
      apply to_numeric_is_numeric. }
  destruct (clean_fixed out l Hnd' Hout Hnum Hid Hun) as [Hlabel Hclean].
  rewrite (run_preprocess_clean out Hnd'). now rewrite Hlabel, Hclean.
Qed.

Lemma preprocess_is_idempotent_witness :
  unique_labels Examples.text_labels /\
  @run_preprocess Plain.pandas
    [ ("diagnosis", SInt [1; 0]%Z);
      ("radius_mean", SFloat [float_of_Z 17; nan]);
      ("texture_mean", SFloat [nan; float_of_Z 10]) ]
  = ([ ("diagnosis", SInt [1; 0]%Z);
       ("radius_mean", SFloat [float_of_Z 17; nan]);
       ("texture_mean", SFloat [nan; float_of_Z 10]) ],
     Ok [ ("diagnosis", SInt [1; 0]%Z);
          ("radius_mean", SFloat [float_of_Z 17; nan]);
          ("texture_mean", SFloat [nan; float_of_Z 10]) ]).
Proof.
  assert (Hnd : unique_labels Examples.text_labels)
    by (apply (bool_decide_unpack _); vm_compute; exact I).
  split; [exact Hnd|].
  apply (preprocess_is_idempotent Plain.pandas Examples.text_labels _ Hnd eq_refl).
  reflexivity.
Defined.

(* ===================================================================== *)
(** * The pipeline on a headerless member                                  *)
(* ===================================================================== *)

(** X18. Whatever a headerless member holds, if loading and preprocessing
    succeed the Clean Table has the 31 official names that follow [id], in
    their order: [diagnosis] first, then the thirty features. *)
Theorem headerless_pipeline_columns :
  forall (P : Pandas) (fs : FileSystem) (zip_path : string)
         (z : ZipFile Content) (member : string) (rows : Content)
         (out : DataFrame),
    fs zip_path = Some z ->
    find_data_member z = Ok (member, false) ->
    zip_read z member = Ok rows ->
    pipeline fs zip_path = Ok out ->
    columns out = tl COLUMN_NAMES /\ length (columns out) = 31.
Proof.
  intros P fs zip_path z member rows out Hfs Hfind Hread Hrun.
  unfold pipeline in Hrun.
  rewrite (load_headerless fs zip_path z member rows Hfs Hfind Hread) in Hrun.
  destruct (read_csv_names_official rows) as [[_ E] | (_ & f & E & _)];
    rewrite E in Hrun; unfold mbind, result_bind in Hrun; [discriminate|].
  rewrite normalize_schema_official in Hrun.
  assert (Hnd : NoDup (columns (imap (fun i n => (n, f i n)) COLUMN_NAMES)))
    by (apply (bool_decide_unpack _); vm_compute; exact I).
  rewrite (run_preprocess_clean _ Hnd) in Hrun. simpl snd in Hrun.
  rewrite (clean_columns _ _ Hrun). split; reflexivity.
Qed.

Lemma headerless_pipeline_columns_witness :
  exists out,
    @pipeline Plain.pandas (fun _ => Some Examples.short_line) "wdbc.zip" = Ok out /\
    columns out = tl COLUMN_NAMES.
Proof.
  eexists. split; [reflexivity|].
  apply (headerless_pipeline_columns Plain.pandas
           (fun _ => Some Examples.short_line) "wdbc.zip"
           Examples.short_line "wdbc.data" [["842302"; "M"]] _
           eq_refl eq_refl eq_refl eq_refl).
Defined.

(* ===================================================================== *)
(** * What the report computes                                             *)
(* ===================================================================== *)

Section ReportFacts.

Lemma isna_sum_zero s :
  isna_sum s = 0 <-> forall v, In v (cells s) -> isna v = false.
Proof.
  unfold isna_sum. generalize (cells s). intros l.
  induction l as [|x l IH]; simpl; [split; [intros _ ? [] | reflexivity]|].
  destruct (isna x) eqn:E; simpl.
  - split; [discriminate|]. intros H. specialize (H x (or_introl eq_refl)). congruence.
  - rewrite IH. split; [intros H v [<-|Hv]; auto | intros H v Hv; apply H; auto].
Qed.

Lemma count_key_sum k counts :
  fold_right Nat.add 0 (map snd (count_key k counts))
  = S (fold_right Nat.add 0 (map snd counts)).
Proof.
  induction counts as [|[k' n] rest IH]; simpl; [reflexivity|].
  destruct (k <? k')%Z; [reflexivity|].
  destruct (k =? k')%Z; simpl; [reflexivity|]. rewrite IH. lia.
Qed.

Lemma count_key_keys k counts x :
  In x (map fst (count_key k counts)) <-> x = k \/ In x (map fst counts).
Proof.
  induction counts as [|[k' n] rest IH]; simpl; [intuition|].
  destruct (k <? k')%Z; [simpl; intuition|].
  destruct (Z.eqb_spec k k'); simpl; [subst; intuition|].
  rewrite IH. intuition.
Qed.

Lemma count_key_sorted k counts :
  StronglySorted Z.lt (map fst counts) ->
  StronglySorted Z.lt (map fst (count_key k counts)).
Proof.
  induction counts as [|[k' n] rest IH]; simpl; intros Hs.
  - repeat constructor.
  - apply StronglySorted_inv in Hs as [Hrest Hall].
    destruct (Z.ltb_spec k k').
    + constructor; [now constructor|]. simpl. constructor; [exact H|].
      rewrite Forall_forall in Hall |- *. intros x Hx. specialize (Hall x Hx). lia.
    + destruct (Z.eqb_spec k k'); simpl.
      * now constructor.
      * constructor; [now apply IH|].
        rewrite Forall_forall in Hall |- *. intros x Hx.
        apply list_elem_of_In, count_key_keys in Hx as [-> | Hx]; [lia|].
        apply Hall. now apply list_elem_of_In.
Qed.

End ReportFacts.

(** X19. The total of missing values that the report computes is zero, and
    the report says that none was found, exactly when no cell of the table
    is NaN or [pd.NA]. *)
Theorem total_missing_zero_iff :
  forall df : DataFrame,
    total_missing df = 0 <->
    forall c s v, In (c, s) df -> In v (cells s) -> isna v = false.
Proof.
  intros df. unfold total_missing, missing. rewrite map_map. simpl.
  induction df as [|[n x] df IH]; simpl.
  - split; [intros _ ? ? ? [] | reflexivity].
  - split.
    + intros H c s v [[= <- <-] | Hin] Hv.
      * apply (proj1 (isna_sum_zero x)); [lia | exact Hv].
      * apply (proj1 IH) with (c := c) (s := s); [lia | exact Hin | exact Hv].
    + intros H.
      assert (H1 : isna_sum x = 0)
        by (apply isna_sum_zero; intros v Hv; apply (H n x v); auto).
      assert (H2 : fold_right Nat.add 0 (map (fun c => isna_sum (snd c)) df) = 0)
        by (apply IH; intros c s v Hin Hv; apply (H c s v); auto).
      lia.
Qed.

(** X20. On the table [preprocess] returns, the class distribution of the
    report lists the labels in strictly ascending order and its counts add
    up to the number of rows: no sample is left out of it. *)
Theorem class_counts_cover_every_row :
  forall (P : Pandas) (t out : DataFrame),
    unique_labels t ->
    snd (run_preprocess t) = Ok out ->
    exists l,
      getitem out "diagnosis" = Ok (SInt l) /\
      let counts := value_counts_sort_index l in
      StronglySorted Z.lt (map fst counts) /\
      fold_right Nat.add 0 (map snd counts) = length l /\
      (forall k, In k (map fst counts) <-> In k l).
Proof.
  intros P t out Hnd Hrun.
  rewrite (run_preprocess_clean t Hnd) in Hrun. simpl in Hrun.
  destruct (clean_label_column t out Hrun) as (l & _ & Hout).
  exists l. split; [exact Hout|]. cbv zeta. unfold value_counts_sort_index.
  clear. induction l as [|k l (Hsorted & Hsum & Hkeys)]; simpl.
  - split; [constructor|]. split; [reflexivity|]. tauto.
  - split; [now apply count_key_sorted|]. split.
    + rewrite count_key_sum. now rewrite Hsum.
    + intros x. rewrite count_key_keys, Hkeys. intuition.
Qed.

Lemma class_counts_cover_every_row_witness :
  unique_labels Examples.text_labels /\
  exists l,
    getitem [ ("diagnosis", SInt [1; 0]%Z);
              ("radius_mean", SFloat [float_of_Z 17; nan]);
              ("texture_mean", SFloat [nan; float_of_Z 10]) ] "diagnosis"
    = Ok (SInt l) /\
    fold_right Nat.add 0 (map snd (value_counts_sort_index l)) = length l.
Proof.
  assert (Hnd : unique_labels Examples.text_labels)
    by (apply (bool_decide_unpack _); vm_compute; exact I).
  split; [exact Hnd|].
  destruct (class_counts_cover_every_row Plain.pandas Examples.text_labels _
              Hnd eq_refl) as (l & Hl & _ & Hsum & _).
  exists l. split; [exact Hl | exact Hsum].
Defined.

(* ===================================================================== *)
(** * When [preprocess] succeeds                                           *)
(* ===================================================================== *)


